(** * traxiv: links to the EMBO Press review process files (src/rpf.py)

    A shallow embedding of [src/rpf.py] and the properties of its
    link generators, its link verifier and its dispatcher.

    Python [str] values are modelled as [string], one [ascii] per code
    point, which covers the code points below 256.  Calls that reach the
    outside (the logger, [randint], [sleep], [requests.post] and
    [utils.resolve]) are nodes of a program tree, so that "no network
    call" is a statement about the tree itself. *)

From Stdlib Require Import String Ascii List ZArith Bool Lia Arith.
From Stdlib Require Import Floats.SpecFloat.
Import ListNotations.

Local Open Scope string_scope.
Local Open Scope bool_scope.

Set Warnings "-register-all".

(** ** Python values and exceptions *)

(** The objects that [json()] can deliver, and that the constructors can
    be handed as extra arguments. A [dict] keeps its items in insertion
    order; a lookup takes the first item with the key. *)
Inductive pyval : Type :=
| PNone
| PBool (b : bool)
| PInt (z : Z)
| PFloat (f : spec_float)
| PStr (s : string)
| PList (l : list pyval)
| PDict (items : list (string * pyval)).

Inductive exn : Type :=
| TypeError
| KeyError (key : string)
| AttributeError
| NotImplementedError
| JSONDecodeError
| OtherError (name : string).

Inductive pyresult (A : Type) : Type :=
| Ok (a : A)
| Err (e : exn).
Arguments Ok {A} a.
Arguments Err {A} e.

(** ** Builtins on [str] *)

Module Str.

Definition code (c : ascii) : nat := nat_of_ascii c.

Definition between (lo hi : nat) (c : ascii) : bool :=
  (lo <=? code c)%nat && (code c <=? hi)%nat.

(** [str.isspace] on one character: tab to carriage return, the four
    separators 0x1c-0x1f, space, 0x85 and 0xa0. *)
Definition isspace (c : ascii) : bool :=
  between 9 13 c || between 28 31 c || (code c =? 32)%nat
  || (code c =? 133)%nat || (code c =? 160)%nat.

(** Upper-case letters below 256: A-Z, and the Latin-1 capitals 0xc0-0xde
    without the multiplication sign 0xd7. Each has its lower-case form 32
    code points higher. *)
Definition isupper (c : ascii) : bool :=
  between 65 90 c || (between 192 222 c && negb (code c =? 215)%nat).

Definition lower_char (c : ascii) : ascii :=
  if isupper c then ascii_of_nat (code c + 32) else c.

Fixpoint lower (s : string) : string :=
  match s with
  | EmptyString => EmptyString
  | String c s' => String (lower_char c) (lower s')
  end.

Fixpoint lstrip (s : string) : string :=
  match s with
  | EmptyString => EmptyString
  | String c s' => if isspace c then lstrip s' else s
  end.

Fixpoint rstrip (s : string) : string :=
  match s with
  | EmptyString => EmptyString
  | String c s' =>
      match rstrip s' with
      | EmptyString => if isspace c then EmptyString else String c EmptyString
      | r => String c r
      end
  end.

Definition strip (s : string) : string := rstrip (lstrip s).

(** [sub in s] for two strings. *)
Fixpoint contains (sub s : string) : bool :=
  String.prefix sub s
  || match s with
     | EmptyString => false
     | String _ s' => contains sub s'
     end.

(** [x in l] for a list of strings. *)
Definition mem (x : string) (l : list string) : bool :=
  existsb (String.eqb x) l.

Fixpoint all (p : ascii -> bool) (s : string) : bool :=
  match s with
  | EmptyString => true
  | String c s' => p c && all p s'
  end.

End Str.

(** ** Builtins on decoded JSON *)

Module Py.

Fixpoint assoc (key : string) (items : list (string * pyval)) : option pyval :=
  match items with
  | [] => None
  | (k, v) :: rest => if String.eqb k key then Some v else assoc key rest
  end.

(** [obj[key]] with a [str] key: a [dict] looks the key up and raises
    [KeyError] without it; a list, a string and every other object raise
    [TypeError]. *)
Definition getitem (obj : pyval) (key : string) : pyresult pyval :=
  match obj with
  | PDict items =>
      match assoc key items with
      | Some v => Ok v
      | None => Err (KeyError key)
      end
  | _ => Err TypeError
  end.

(** [obj.get(key, default)]: only a [dict] has the attribute. *)
Definition get (obj : pyval) (key : string) (default : pyval) : pyresult pyval :=
  match obj with
  | PDict items =>
      match assoc key items with
      | Some v => Ok v
      | None => Ok default
      end
  | _ => Err AttributeError
  end.

(** The exact value of a float is an integer [z]. *)
Definition float_is (f : spec_float) (z : Z) : bool :=
  match f with
  | S754_zero _ => (z =? 0)%Z
  | S754_finite s m e =>
      let v := if s then Z.neg m else Z.pos m in
      if (0 <=? e)%Z then (v * 2 ^ e =? z)%Z else (v =? z * 2 ^ (- e))%Z
  | _ => false
  end.

(** [obj != z] for an integer literal [z]: numbers compare by value
    ([True] is 1 and [False] is 0), everything else differs. *)
Definition ne_int (obj : pyval) (z : Z) : bool :=
  match obj with
  | PInt n => negb (n =? z)%Z
  | PBool b => negb ((if b then 1 else 0) =? z)%Z
  | PFloat f => negb (float_is f z)
  | _ => true
  end.

Definition is_str (s : string) (v : pyval) : bool :=
  match v with
  | PStr t => String.eqb t s
  | _ => false
  end.

(** [s in obj] for a string [s]: substring of a string, element of a
    list, key of a [dict]; the other objects are not iterable. *)
Definition str_in (s : string) (obj : pyval) : pyresult bool :=
  match obj with
  | PStr t => Ok (Str.contains s t)
  | PList l => Ok (existsb (is_str s) l)
  | PDict items => Ok (match assoc s items with Some _ => true | None => false end)
  | _ => Err TypeError
  end.

End Py.

(** ** The outside world as a program tree *)

Inductive loglevel : Type := DEBUG | WARNING.

(** What [requests.post] hands back: the status code and what [json()]
    does on it, return the decoded body or raise. *)
Record response : Type := {
  status_code : Z;
  json : pyresult pyval
}.

(** A program: a result, a raise, or a call to the outside with what
    follows it. [Log] keeps the format and the link it is about. *)
Inductive io (A : Type) : Type :=
| Ret (a : A)
| Raise (e : exn)
| Randint (a b : Z) (k : Z -> io A)
| Sleep (secs : Z) (k : io A)
| Log (lvl : loglevel) (fmt : string) (arg : string) (k : io A)
| RequestsPost (url : string) (body : pyval) (timeout : Z) (k : response -> io A)
| Resolve (doi : string) (k : string -> io A).
Arguments Ret {A} a.
Arguments Raise {A} e.
Arguments Randint {A} a b k.
Arguments Sleep {A} secs k.
Arguments Log {A} lvl fmt arg k.
Arguments RequestsPost {A} url body timeout k.
Arguments Resolve {A} doi k.

Fixpoint bind {A B : Type} (p : io A) (f : A -> io B) : io B :=
  match p with
  | Ret a => f a
  | Raise e => Raise e
  | Randint a b k => Randint a b (fun z => bind (k z) f)
  | Sleep secs k => Sleep secs (bind k f)
  | Log lvl fmt arg k => Log lvl fmt arg (bind k f)
  | RequestsPost url body timeout k =>
      RequestsPost url body timeout (fun r => bind (k r) f)
  | Resolve doi k => Resolve doi (fun u => bind (k u) f)
  end.

(** A pure step that may raise. *)
Definition lift {A : Type} (r : pyresult A) : io A :=
  match r with
  | Ok a => Ret a
  | Err e => Raise e
  end.

Notation "x <- p ;; q" := (bind p (fun x => q))
  (at level 61, p at next level, right associativity).
Notation "p ;;; q" := (bind p (fun _ => q))
  (at level 61, right associativity).

(** One event per call that left the process. *)
Inductive event : Type :=
| EvRandint (a b drawn : Z)
| EvSleep (secs : Z)
| EvLog (lvl : loglevel) (fmt : string) (arg : string)
| EvPost (url : string) (body : pyval) (timeout : Z)
| EvResolve (doi : string).

(** The collaborators: the random source, the proxy behind
    [requests.post] and [utils.resolve]. The last two may raise, and the
    source has no handler around either call. *)
Record world : Type := {
  w_randint : Z -> Z -> Z;
  w_post : string -> pyval -> Z -> pyresult response;
  w_resolve : string -> pyresult string
}.

Fixpoint run {A : Type} (w : world) (p : io A) : list event * pyresult A :=
  match p with
  | Ret a => ([], Ok a)
  | Raise e => ([], Err e)
  | Randint a b k =>
      let d := w_randint w a b in
      let (t, r) := run w (k d) in (EvRandint a b d :: t, r)
  | Sleep secs k =>
      let (t, r) := run w k in (EvSleep secs :: t, r)
  | Log lvl fmt arg k =>
      let (t, r) := run w k in (EvLog lvl fmt arg :: t, r)
  | RequestsPost url body timeout k =>
      match w_post w url body timeout with
      | Ok resp => let (t, r) := run w (k resp) in (EvPost url body timeout :: t, r)
      | Err e => ([EvPost url body timeout], Err e)
      end
  | Resolve doi k =>
      match w_resolve w doi with
      | Ok u => let (t, r) := run w (k u) in (EvResolve doi :: t, r)
      | Err e => ([EvResolve doi], Err e)
      end
  end.

(** ** The part of the [re] module that the source uses

    A backtracking matcher with Python's priorities: a repetition is
    greedy and gives characters back one at a time, [search] returns the
    leftmost match, [sub] replaces the matches from left to right. *)

Module Re.

Inductive citem : Type :=
| CChar (c : ascii)
| CRange (lo hi : ascii)
| CDigit.

Inductive atom : Type :=
| AChar (c : ascii)
| AAny
| AClass (items : list citem).

Inductive regex : Type :=
| Eps
| Bol
| Eol
| One (a : atom)
| Rep (a : atom) (lo : nat) (hi : option nat)
| Seq (r1 r2 : regex)
| Group (n : nat) (r : regex).

(** [\d] on the code points below 256 is 0-9. *)
Definition is_digit (c : ascii) : bool := Str.between 48 57 c.

Definition citem_ok (i : citem) (c : ascii) : bool :=
  match i with
  | CChar x => Ascii.eqb x c
  | CRange lo hi => Str.between (Str.code lo) (Str.code hi) c
  | CDigit => is_digit c
  end.

(** [.] takes every character but the line feed. *)
Definition atom_ok (a : atom) (c : ascii) : bool :=
  match a with
  | AChar x => Ascii.eqb x c
  | AAny => negb (Str.code c =? 10)%nat
  | AClass items => existsb (fun i => citem_ok i c) items
  end.

(** [$] without MULTILINE: at the end, or before a line feed that ends
    the string. *)
Definition at_eol (s : string) : bool :=
  match s with
  | EmptyString => true
  | String c EmptyString => (Str.code c =? 10)%nat
  | _ => false
  end.

Definition can_more (hi : option nat) : bool :=
  match hi with
  | Some 0 => false
  | _ => true
  end.

Definition groups : Type := list (nat * string).

Fixpoint group (n : nat) (g : groups) : string :=
  match g with
  | [] => ""
  | (m, s) :: rest => if (m =? n)%nat then s else group n rest
  end.

(** The first [n] characters. *)
Fixpoint take (n : nat) (s : string) : string :=
  match n, s with
  | S n', String c s' => String c (take n' s')
  | _, _ => EmptyString
  end.

(** A greedy repetition of one atom, between [lo] and [hi] times; the
    continuation [k] gets the position and the rest of the input. *)
Fixpoint rep {R : Type} (a : atom) (lo : nat) (hi : option nat) (pos : nat)
    (s : string) (k : nat -> string -> option R) {struct s} : option R :=
  let stop := if (lo =? 0)%nat then k pos s else None in
  match s with
  | String c s' =>
      if atom_ok a c && can_more hi then
        match rep a (pred lo) (option_map pred hi) (S pos) s' k with
        | Some r => Some r
        | None => stop
        end
      else stop
  | EmptyString => stop
  end.

(** The matcher proper, in continuation-passing style: [k] gets the
    position, the rest of the input and the groups closed so far. *)
Fixpoint exec {R : Type} (r : regex) (pos : nat) (s : string) (g : groups)
    (k : nat -> string -> groups -> option R) {struct r} : option R :=
  match r with
  | Eps => k pos s g
  | Bol => if (pos =? 0)%nat then k pos s g else None
  | Eol => if at_eol s then k pos s g else None
  | One a =>
      match s with
      | String c s' => if atom_ok a c then k (S pos) s' g else None
      | EmptyString => None
      end
  | Rep a lo hi => rep a lo hi pos s (fun pos' s' => k pos' s' g)
  | Seq r1 r2 => exec r1 pos s g (fun pos' s' g' => exec r2 pos' s' g' k)
  | Group n r' =>
      exec r' pos s g (fun pos' s' g' => k pos' s' ((n, take (pos' - pos) s) :: g'))
  end.

(** A match that starts at [pos], where [s] is the input from [pos] on:
    the number of characters matched and the groups. *)
Definition match_at (r : regex) (pos : nat) (s : string) : option (nat * groups) :=
  exec r pos s [] (fun pos' _ g => Some (pos' - pos, g)).

(** [re.search(r, s)]: the first position with a match; the result is
    the start, [group(0)] and the groups. *)
Fixpoint search_from (r : regex) (pos : nat) (s : string) : option (nat * string * groups) :=
  match match_at r pos s with
  | Some (n, g) => Some (pos, take n s, g)
  | None =>
      match s with
      | EmptyString => None
      | String _ s' => search_from r (S pos) s'
      end
  end.

Definition search (r : regex) (s : string) : option (nat * string * groups) :=
  search_from r 0 s.

(** A replacement template: text and group references. *)
Inductive titem : Type :=
| TLit (s : string)
| TGroup (n : nat).

Fixpoint expand (t : list titem) (g : groups) : string :=
  match t with
  | [] => ""
  | TLit s :: rest => s ++ expand rest g
  | TGroup n :: rest => group n g ++ expand rest g
  end.

(** [re.sub(r, repl, s)] from position [pos]; [skip] counts the
    characters of the last match that are still to be passed over. An
    empty match is replaced and the character after it is kept. *)
Fixpoint sub_from (r : regex) (repl : list titem) (skip pos : nat) (s : string)
    {struct s} : string :=
  match skip with
  | S skip' =>
      match s with
      | String _ s' => sub_from r repl skip' (S pos) s'
      | EmptyString => ""
      end
  | 0 =>
      match match_at r pos s with
      | Some (n, g) =>
          expand repl g ++
          match s with
          | String c s' =>
              match n with
              | 0 => String c (sub_from r repl 0 (S pos) s')
              | S n' => sub_from r repl n' (S pos) s'
              end
          | EmptyString => ""
          end
      | None =>
          match s with
          | String c s' => String c (sub_from r repl 0 (S pos) s')
          | EmptyString => ""
          end
      end
  end.

Definition sub (r : regex) (repl : list titem) (s : string) : string :=
  sub_from r repl 0 0 s.

Fixpoint seq (rs : list regex) : regex :=
  match rs with
  | [] => Eps
  | [r] => r
  | r :: rest => Seq r (seq rest)
  end.

End Re.

(** ** The classes of rpf.py *)

Inductive klass : Type := KAbstract | KEjErEmmMsb | KLSA.

(** An instance: its class and its one attribute. *)
Record instance : Type := {
  klass_of : klass;
  delay_requests : bool
}.

(** The builtin that [super.__init__] denotes when [super] is the type
    itself and not a call of it: the slot wrapper of the type [super],
    unbound. Called without a positional argument it raises [TypeError]
    (it needs the object it works on); handed anything that is not a
    [super] object, and no [pyval] is one, it raises [TypeError] too. *)
Definition super___init__ (args : list pyval) (kwargs : list (string * pyval))
  : pyresult unit :=
  match args with
  | [] => Err TypeError
  | _ :: _ => Err TypeError
  end.

Module RPFLinkAbstract.

(** [__init__(self, delay_requests=True, *args, **kwargs)] on a fresh
    object of class [k]. The attribute is set to [True] whatever the
    argument is. *)
Definition __init__ (k : klass) (delay_requests : bool)
    (args : list pyval) (kwargs : list (string * pyval)) : pyresult instance :=
  match super___init__ args kwargs with
  | Err e => Err e
  | Ok _ => Ok {| klass_of := k; delay_requests := true |}
  end.

Definition _generate_link (self : instance) (doi : string) : io string :=
  Raise NotImplementedError.

Definition proxy_request_data (link : string) : pyval :=
  PDict [("cmd", PStr "request.get"); ("url", PStr link); ("maxTimeout", PInt 60000)].

(** [_test(self, link, invalid='')]; [link = None] is the absent link. *)
Definition _test (self : instance) (link : option string) (invalid : string)
  : io string :=
  match link with
  | None => Ret invalid
  | Some EmptyString => Ret invalid
  | Some link =>
      (if delay_requests self then
         Randint 5 20 (fun duration =>
         Log DEBUG "Delaying %s seconds before requesting %s" link
         (Sleep duration (Ret tt)))
       else Ret tt) ;;;
      RequestsPost "http://proxy:8191/v1" (proxy_request_data link) 60000
      (fun proxy_response =>
       if negb (status_code proxy_response =? 200)%Z then
         Log WARNING "Failed to get response from proxy for %s: %s, %s" link
         (Ret invalid)
       else
         match json proxy_response with
         | Err JSONDecodeError =>
             Log WARNING "Failed to get valid response from proxy for %s: %s, %s" link
             (Ret invalid)
         | Err e => Raise e
         | Ok proxy_response_data =>
             solution <- lift (Py.getitem proxy_response_data "solution") ;;
             response_status <- lift (Py.getitem solution "status") ;;
             solution <- lift (Py.getitem proxy_response_data "solution") ;;
             response_headers <- lift (Py.getitem solution "headers") ;;
             if Py.ne_int response_status 200 then
               Log WARNING "Failed to get response for %s: %s, %s" link
               (Ret invalid)
             else
               response_content_type <-
                 lift (Py.get response_headers "content-type" (PStr "")) ;;
               found <- lift (Py.str_in "application/pdf" response_content_type) ;;
               Ret (if found then link else invalid)
         end)
  end.

(** [__call__(self, doi)]; [generate] is [self._generate_link], which
    the class of [self] decides. *)
Definition __call__ (generate : instance -> string -> io string)
    (self : instance) (doi : string) : io string :=
  link <- generate self doi ;;
  _test self (Some link) "".

End RPFLinkAbstract.

Module RPFLinkEjErEmmMsb.

Import Re.

(** [[-_;()/:a-zA-Z0-9]] *)
Definition segment : atom :=
  AClass [CChar "-"; CChar "_"; CChar ";"; CChar "("; CChar ")"; CChar "/";
          CChar ":"; CRange "a" "z"; CRange "A" "Z"; CRange "0" "9"].

(** [^10.\d{4,9}/([-_;()/:a-zA-Z0-9]+)\.([-_;()/:a-zA-Z0-9]+)$] *)
Definition pattern : regex :=
  seq [Bol; One (AChar "1"); One (AChar "0"); One AAny;
       Rep (AClass [CDigit]) 4 (Some 9); One (AChar "/");
       Group 1 (Rep segment 1 None); One (AChar ".");
       Group 2 (Rep segment 1 None); Eol].

(** [\1\2] *)
Definition repl : list titem := [TGroup 1; TGroup 2].

Definition _generate_link (self : instance) (doi : string) : io string :=
  let suffix_without_dot := sub pattern repl doi in
  let link :=
    "https://www.embopress.org/action/downloadSupplement?doi=" ++ doi
    ++ "&file=" ++ suffix_without_dot ++ ".reviewer_comments.pdf" in
  Ret link.

(** [RPFLinkEjErEmmMsb()]: the class has no [__init__] of its own. *)
Definition new (args : list pyval) (kwargs : list (string * pyval))
  : pyresult instance :=
  RPFLinkAbstract.__init__ KEjErEmmMsb true args kwargs.

End RPFLinkEjErEmmMsb.

Module RPFLinkLSA.

Import Re.

(** [\d+/\d+/e\d+] *)
Definition pattern : regex :=
  seq [Rep (AClass [CDigit]) 1 None; One (AChar "/");
       Rep (AClass [CDigit]) 1 None; One (AChar "/"); One (AChar "e");
       Rep (AClass [CDigit]) 1 None].

(** [re.search] returns [None] without a match, and [None.group]
    raises [AttributeError]. *)
Definition _generate_link (self : instance) (doi : string) : io string :=
  Resolve doi (fun resolved =>
  match search pattern resolved with
  | None => Raise AttributeError
  | Some (_, vol_issue_enumber, _) =>
      let link :=
        "https://www.life-science-alliance.org/content/lsa/"
        ++ vol_issue_enumber ++ ".reviewer-comments.pdf" in
      Ret link
  end).

Definition new (args : list pyval) (kwargs : list (string * pyval))
  : pyresult instance :=
  RPFLinkAbstract.__init__ KLSA true args kwargs.

End RPFLinkLSA.

(** [self._generate_link]: the method of the class of [self]. *)
Definition _generate_link (self : instance) (doi : string) : io string :=
  match klass_of self with
  | KAbstract => RPFLinkAbstract._generate_link self doi
  | KEjErEmmMsb => RPFLinkEjErEmmMsb._generate_link self doi
  | KLSA => RPFLinkLSA._generate_link self doi
  end.

(** [resolver(doi)] *)
Definition __call__ (self : instance) (doi : string) : io string :=
  RPFLinkAbstract.__call__ _generate_link self doi.

Definition generate_rpf_link (journal doi : string) : io string :=
  let journal := Str.lower (Str.strip journal) in
  if Str.mem journal ["the embo journal"; "embo reports";
                      "embo molecular medicine"; "molecular systems biology"]
  then
    resolver <- lift (RPFLinkEjErEmmMsb.new [] []) ;;
    __call__ resolver doi
  else if String.eqb journal "life science alliance" then
    resolver <- lift (RPFLinkLSA.new [] []) ;;
    __call__ resolver doi
  else Ret "".

(** The class that the dispatch of [generate_rpf_link] settles on. *)
Definition selected (journal : string) : option klass :=
  let journal := Str.lower (Str.strip journal) in
  if Str.mem journal ["the embo journal"; "embo reports";
                      "embo molecular medicine"; "molecular systems biology"]
  then Some KEjErEmmMsb
  else if String.eqb journal "life science alliance" then Some KLSA
  else None.

Definition recognized : list string :=
  ["the embo journal"; "embo reports"; "embo molecular medicine";
   "molecular systems biology"; "life science alliance"].

Definition ejer : instance := {| klass_of := KEjErEmmMsb; delay_requests := true |}.
Definition lsa : instance := {| klass_of := KLSA; delay_requests := true |}.

(** Test doubles: a proxy that answers every request with [resp]; a
    resolver that fails with [e], or that lands on [url]. *)
Definition proxy_answers (resp : response) : world :=
  {| w_randint := fun a _ => a;
     w_post := fun _ _ _ => Ok resp;
     w_resolve := fun _ => Err (OtherError "unused") |}.


Definition resolver_lands (url : string) (resp : response) : world :=
  {| w_randint := fun a _ => a;
     w_post := fun _ _ _ => Ok resp;
     w_resolve := fun _ => Ok url |}.

(** ** The shapes of DOIs and landing pages *)

(** A non-empty string of digits. *)
Definition digits (s : string) : Prop :=
  s <> "" /\ Str.all Re.is_digit s = true.

(** A non-empty string over [[-_;()/:a-zA-Z0-9]]. *)
Definition segment (s : string) : Prop :=
  s <> "" /\ Str.all (Re.atom_ok RPFLinkEjErEmmMsb.segment) s = true.

(** [<digits>/<digits>/e<digits>] *)
Definition vol_issue_enumber (m : string) : Prop :=
  exists v i n, digits v /\ digits i /\ digits n /\ m = v ++ "/" ++ i ++ "/e" ++ n.

(** [m] occurs in [s] after [pre]. *)
Definition occurs (pre m post s : string) : Prop :=
  s = pre ++ m ++ post.

(** The string does not go on with a digit. *)
Definition no_digit_ahead (s : string) : Prop :=
  match s with
  | EmptyString => True
  | String c _ => Re.is_digit c = false
  end.

(** The input does not go on with a character of [a]. *)
Definition head_fails (a : Re.atom) (s : string) : Prop :=
  match s with
  | EmptyString => True
  | String c _ => Re.atom_ok a c = false
  end.

Definition fits (hi : option nat) (n : nat) : Prop :=
  match hi with
  | None => True
  | Some h => n <= h
  end.

(** [10.<4-9 digits>/<seg1>.<seg2>] *)
Definition two_segment_doi (doi : string) : Prop :=
  exists ds seg1 seg2,
    4 <= String.length ds <= 9 /\ Str.all Re.is_digit ds = true /\
    segment seg1 /\ segment seg2 /\
    doi = "10." ++ ds ++ "/" ++ seg1 ++ "." ++ seg2.

(** ** Reading a trace *)

Definition is_post (ev : event) : bool :=
  match ev with
  | EvPost _ _ _ => true
  | _ => false
  end.

Definition is_resolve (ev : event) : bool :=
  match ev with
  | EvResolve _ => true
  | _ => false
  end.

Definition is_warning (ev : event) : bool :=
  match ev with
  | EvLog WARNING _ _ => true
  | _ => false
  end.

(** The events of the delay in front of the request for [link]: the
    draw, the debug message and the sleep of the drawn duration. *)
Definition delay_trace (w : world) (self : instance) (link : string) : list event :=
  if delay_requests self then
    [EvRandint 5 20 (w_randint w 5 20);
     EvLog DEBUG "Delaying %s seconds before requesting %s" link;
     EvSleep (w_randint w 5 20)]
  else [].

(** The one request of the verifier for [link]. *)
Definition proxy_post (link : string) : event :=
  EvPost "http://proxy:8191/v1" (RPFLinkAbstract.proxy_request_data link) 60000.

(** What the proxy answers to the request for [link]. *)
Definition proxy_answer (w : world) (link : string) : pyresult response :=
  w_post w "http://proxy:8191/v1" (RPFLinkAbstract.proxy_request_data link) 60000.

(** The answer of the proxy vouches for a PDF: status 200, a JSON body
    whose [solution.status] equals 200 and whose [solution.headers]
    holds under [content-type] a value with [application/pdf] in it. *)
Definition confirms_pdf (resp : response) : Prop :=
  status_code resp = 200%Z /\
  exists data solution status headers content_type,
    json resp = Ok data /\
    Py.getitem data "solution" = Ok solution /\
    Py.getitem solution "status" = Ok status /\
    Py.ne_int status 200 = false /\
    Py.getitem solution "headers" = Ok headers /\
    Py.get headers "content-type" (PStr "") = Ok content_type /\
    Py.str_in "application/pdf" content_type = Ok true.


Definition line_feed : ascii := ascii_of_nat 10.

(** What the pattern of the four journals takes: [10], one character
    that is no line feed, 4 to 9 digits, [/], two segments with a dot
    between them, and [tail], nothing or one line feed. *)
Definition loose_two_segment_doi (doi seg1 seg2 tail : string) : Prop :=
  exists c ds,
    c <> line_feed /\
    4 <= String.length ds <= 9 /\ Str.all Re.is_digit ds = true /\
    segment seg1 /\ segment seg2 /\
    (tail = "" \/ tail = String line_feed "") /\
    doi = "10" ++ String c (ds ++ "/" ++ seg1 ++ "." ++ seg2 ++ tail).

(** * Properties *)

(** ** Strings *)

Lemma append_nil_r (s : string) : s ++ "" = s.
Proof. induction s as [|c s IH]; simpl; [reflexivity | now rewrite IH]. Qed.

Lemma append_assoc (a b c : string) : (a ++ b) ++ c = a ++ b ++ c.
Proof. induction a as [|x a IH]; simpl; [reflexivity | now rewrite IH]. Qed.

(** Appends in right-nested form, literals unfolded. *)
Ltac norm_append := repeat first [rewrite append_assoc | progress cbn [append]].

Lemma length_append (a b : string) :
  String.length (a ++ b) = String.length a + String.length b.
Proof. induction a as [|x a IH]; simpl; [reflexivity | now rewrite IH]. Qed.

Lemma take_append (a b : string) : Re.take (String.length a) (a ++ b) = a.
Proof. induction a as [|x a IH]; simpl; [now destruct b | now rewrite IH]. Qed.

Lemma all_append (p : ascii -> bool) (a b : string) :
  Str.all p (a ++ b) = Str.all p a && Str.all p b.
Proof.
  induction a as [|x a IH]; simpl; [reflexivity|].
  now rewrite IH, andb_assoc.
Qed.

Lemma mem_In (x : string) (l : list string) : Str.mem x l = true <-> In x l.
Proof.
  unfold Str.mem. rewrite existsb_exists. split.
  - intros [y [Hy He]]. apply String.eqb_eq in He. now subst.
  - intros H. exists x. split; [assumption | apply String.eqb_refl].
Qed.

(** ** The dispatcher *)

Lemma generate_rpf_link_selected (journal doi : string) :
  generate_rpf_link journal doi =
  match selected journal with
  | Some KEjErEmmMsb => resolver <- lift (RPFLinkEjErEmmMsb.new [] []) ;; __call__ resolver doi
  | Some _ => resolver <- lift (RPFLinkLSA.new [] []) ;; __call__ resolver doi
  | None => Ret ""
  end.
Proof.
  unfold generate_rpf_link, selected.
  destruct (Str.mem _ _); [reflexivity|].
  destruct (String.eqb _ _); reflexivity.
Qed.

Lemma selected_recognized (journal : string) :
  selected journal <> None <-> In (Str.lower (Str.strip journal)) recognized.
Proof.
  unfold selected, recognized.
  destruct (Str.mem _ _) eqn:Hm.
  - apply mem_In in Hm. split; [intros _ | discriminate].
    simpl in Hm |- *. tauto.
  - destruct (String.eqb _ _) eqn:He.
    + apply String.eqb_eq in He. split; [intros _ | discriminate].
      simpl. do 4 right. left. now symmetry.
    + apply String.eqb_neq in He. split; [congruence | intros Hin].
      assert (Hn : ~ In (Str.lower (Str.strip journal))
                     ["the embo journal"; "embo reports";
                      "embo molecular medicine"; "molecular systems biology"]).
      { intros Hc. apply mem_In in Hc. congruence. }
      simpl in Hin, Hn. exfalso. intuition congruence.
Qed.

(** C1: for every recognized journal name and every DOI,
    [generate_rpf_link] raises [TypeError] while the strategy is being
    constructed: neither class can be instantiated, the program is the
    bare raise, and no event (delay, proxy request, DOI resolution)
    happens in any world. *)
Theorem generate_rpf_link_recognized_raises (journal doi : string) :
  In (Str.lower (Str.strip journal)) recognized ->
  RPFLinkEjErEmmMsb.new [] [] = Err TypeError /\
  RPFLinkLSA.new [] [] = Err TypeError /\
  generate_rpf_link journal doi = Raise TypeError /\
  forall w, run w (generate_rpf_link journal doi) = ([], Err TypeError).
Proof.
  intros Hin. apply selected_recognized in Hin.
  assert (Hg : generate_rpf_link journal doi = Raise TypeError).
  { rewrite generate_rpf_link_selected.
    destruct (selected journal) as [[| |]|]; try reflexivity. congruence. }
  repeat split; try assumption. intros w. now rewrite Hg.
Qed.

Lemma generate_rpf_link_recognized_raises_witness :
  In (Str.lower (Str.strip "EMBO reports")) recognized /\
  generate_rpf_link "EMBO reports" "10.15252/embr.201847097" = Raise TypeError.
Proof.
  assert (H : In (Str.lower (Str.strip "EMBO reports")) recognized).
  { simpl. right. left. reflexivity. }
  split; [exact H|].
  exact (proj1 (proj2 (proj2
    (generate_rpf_link_recognized_raises "EMBO reports" "10.15252/embr.201847097" H)))).
Defined.

(** C6: a journal name whose stripped, lower-cased form is none of the
    five recognized names gives the empty string at once: the program is
    the bare return, so no strategy is built and no event happens in any
    world. *)
Theorem generate_rpf_link_unrecognized (journal doi : string) :
  ~ In (Str.lower (Str.strip journal)) recognized ->
  selected journal = None /\
  generate_rpf_link journal doi = Ret "" /\
  forall w, run w (generate_rpf_link journal doi) = ([], Ok "").
Proof.
  intros Hn.
  assert (Hs : selected journal = None).
  { destruct (selected journal) eqn:E; [|reflexivity].
    exfalso. apply Hn, selected_recognized. congruence. }
  assert (Hg : generate_rpf_link journal doi = Ret "").
  { now rewrite generate_rpf_link_selected, Hs. }
  repeat split; try assumption. intros w. now rewrite Hg.
Qed.

Lemma generate_rpf_link_unrecognized_witness :
  ~ In (Str.lower (Str.strip "Some Random Journal")) recognized /\
  generate_rpf_link "Some Random Journal" "anything" = Ret "".
Proof.
  assert (H : ~ In (Str.lower (Str.strip "Some Random Journal")) recognized).
  { simpl. intros [H|[H|[H|[H|[H|H]]]]]; try discriminate H. exact H. }
  split; [exact H|].
  exact (proj1 (proj2
    (generate_rpf_link_unrecognized "Some Random Journal" "anything" H))).
Defined.

(** C9: two journal names that agree after stripping and lower-casing
    select the same strategy, and [generate_rpf_link] is the same program
    on both. *)
Theorem generate_rpf_link_normalizes (j1 j2 doi : string) :
  Str.lower (Str.strip j1) = Str.lower (Str.strip j2) ->
  selected j1 = selected j2 /\
  generate_rpf_link j1 doi = generate_rpf_link j2 doi.
Proof.
  intros H. unfold selected, generate_rpf_link. rewrite H. split; reflexivity.
Qed.

Lemma generate_rpf_link_normalizes_witness :
  Str.lower (Str.strip "  Molecular Systems Biology ") =
  Str.lower (Str.strip "molecular systems biology") /\
  selected "  Molecular Systems Biology " = Some KEjErEmmMsb /\
  selected "  Molecular Systems Biology " = selected "molecular systems biology".
Proof.
  assert (H : Str.lower (Str.strip "  Molecular Systems Biology ") =
              Str.lower (Str.strip "molecular systems biology")) by reflexivity.
  split; [exact H|]. split; [reflexivity|].
  exact (proj1 (generate_rpf_link_normalizes
    "  Molecular Systems Biology " "molecular systems biology" "10.15252/msb.20198849" H)).
Defined.

(** ** The verifier *)

(** C10: on an empty or absent link [_test] returns the empty string at
    once (its [invalid] argument, whose default is the empty string):
    the program is the bare return, with neither the delay nor the proxy
    request. *)
Theorem _test_empty_link (self : instance) (link : option string) :
  link = None \/ link = Some "" ->
  (forall invalid, RPFLinkAbstract._test self link invalid = Ret invalid) /\
  forall w, run w (RPFLinkAbstract._test self link "") = ([], Ok "").
Proof.
  intros [H|H]; subst link; split; reflexivity.
Qed.

Lemma _test_empty_link_witness :
  (Some "" = None \/ Some "" = Some "") /\
  forall w, run w (RPFLinkAbstract._test ejer (Some "") "") = ([], Ok "").
Proof.
  assert (H : Some "" = None \/ Some "" = Some "") by (right; reflexivity).
  split; [exact H|].
  exact (proj2 (_test_empty_link ejer (Some "") H)).
Defined.

(** ** The matcher *)

(** A repetition that can take a whole run, and whose continuation
    accepts what follows, takes the whole run. *)
Lemma rep_greedy {R : Type} (a : Re.atom) (run : string) :
  forall rest lo hi pos (k : nat -> string -> option R) r,
    Str.all (Re.atom_ok a) run = true ->
    head_fails a rest ->
    lo <= String.length run ->
    fits hi (String.length run) ->
    k (pos + String.length run) rest = Some r ->
    Re.rep a lo hi pos (run ++ rest) k = Some r.
Proof.
  induction run as [|c run IH]; intros rest lo hi pos k r Hall Hhead Hlo Hhi Hk.
  - simpl in *. rewrite Nat.add_0_r in Hk.
    assert (lo = 0) by lia. subst lo.
    destruct rest as [|c rest]; simpl; [assumption|].
    simpl in Hhead. now rewrite Hhead.
  - simpl in Hall. apply andb_true_iff in Hall as [Hc Hall].
    simpl. rewrite Hc.
    assert (Hm : Re.can_more hi = true).
    { destruct hi as [[|h]|]; simpl in *; [lia | reflexivity | reflexivity]. }
    rewrite Hm. simpl.
    rewrite (IH rest (pred lo) (option_map pred hi) (S pos) k r); try assumption.
    + reflexivity.
    + simpl in Hlo. lia.
    + destruct hi as [h|]; simpl in *; [lia | exact I].
    + simpl in Hk. now rewrite <- Nat.add_succ_comm in Hk.
Qed.

(** Whatever a repetition returns, its continuation returned it after a
    run of at least [lo] characters of [a]. *)
Lemma rep_sound {R : Type} (a : Re.atom) (s : string) :
  forall lo hi pos (k : nat -> string -> option R) r,
    Re.rep a lo hi pos s k = Some r ->
    exists run rest,
      s = run ++ rest /\
      Str.all (Re.atom_ok a) run = true /\
      lo <= String.length run /\
      k (pos + String.length run) rest = Some r.
Proof.
  induction s as [|c s IH]; intros lo hi pos k r H.
  - simpl in H. destruct (Nat.eqb_spec lo 0) as [->|]; [|discriminate].
    exists "", "". simpl. rewrite Nat.add_0_r. repeat split; auto.
  - assert (Hstop : (if (lo =? 0)%nat then k pos (String c s) else None) = Some r ->
                    exists run rest,
                      String c s = run ++ rest /\
                      Str.all (Re.atom_ok a) run = true /\
                      lo <= String.length run /\
                      k (pos + String.length run) rest = Some r).
    { intros Hs. destruct (Nat.eqb_spec lo 0) as [->|]; [|discriminate].
      exists "", (String c s). simpl. rewrite Nat.add_0_r. repeat split; auto. }
    simpl in H.
    destruct (Re.atom_ok a c && Re.can_more hi) eqn:Hc; [|now apply Hstop].
    destruct (Re.rep a (pred lo) (option_map pred hi) (S pos) s k) as [r'|] eqn:Hr;
      [|now apply Hstop].
    injection H as ->.
    apply IH in Hr as (run & rest & -> & Hall & Hlo & Hk).
    apply andb_true_iff in Hc as [Hc _].
    exists (String c run), rest. simpl. rewrite Hc, Hall.
    repeat split; auto; [lia|].
    now rewrite <- Nat.add_succ_comm.
Qed.

(** Every string splits into its longest run of [p] and a rest. *)
Lemma span (p : ascii -> bool) (s : string) :
  exists run rest,
    s = run ++ rest /\ Str.all p run = true /\
    match rest with
    | EmptyString => True
    | String c _ => p c = false
    end.
Proof.
  induction s as [|c s (run & rest & Hs & Hall & Hrest)].
  - exists "", "". repeat split.
  - destruct (p c) eqn:Hc.
    + exists (String c run), rest. simpl. rewrite Hc, Hall, <- Hs. repeat split.
      exact Hrest.
    + exists "", (String c s). repeat split. exact Hc.
Qed.

Lemma digit_atom (c : ascii) :
  Re.atom_ok (Re.AClass [Re.CDigit]) c = Re.is_digit c.
Proof. simpl. apply orb_false_r. Qed.

Lemma all_digit_atom (s : string) :
  Str.all (Re.atom_ok (Re.AClass [Re.CDigit])) s = Str.all Re.is_digit s.
Proof.
  induction s as [|c s IH]; [reflexivity|].
  simpl. now rewrite IH, orb_false_r.
Qed.

Lemma take_append_len (n : nat) (a b : string) :
  n = String.length a -> Re.take n (a ++ b) = a.
Proof. intros ->. apply take_append. Qed.

(** ** The generator of the four EMBO Press journals *)

(** The pattern matches a DOI of the two-segment form as a whole, with
    the two segments as its groups. *)
Lemma ejer_pattern_matches (ds seg1 seg2 : string) :
  4 <= String.length ds <= 9 -> Str.all Re.is_digit ds = true ->
  segment seg1 -> segment seg2 ->
  Re.match_at RPFLinkEjErEmmMsb.pattern 0 ("10." ++ ds ++ "/" ++ seg1 ++ "." ++ seg2)
  = Some (String.length ("10." ++ ds ++ "/" ++ seg1 ++ "." ++ seg2), [(2, seg2); (1, seg1)]).
Proof.
  intros Hlen Hds [Hn1 Hs1] [Hn2 Hs2].
  assert (L1 : 1 <= String.length seg1) by (destruct seg1; [congruence | simpl; lia]).
  assert (L2 : 1 <= String.length seg2) by (destruct seg2; [congruence | simpl; lia]).
  unfold Re.match_at, RPFLinkEjErEmmMsb.pattern.
  cbn [Re.seq Re.exec append Nat.eqb Re.atom_ok].
  rewrite !Ascii.eqb_refl.
  change (negb (Str.code "." =? 10)%nat) with true. cbv iota.
  apply rep_greedy.
  - now rewrite all_digit_atom.
  - reflexivity.
  - lia.
  - simpl. lia.
  - cbv beta iota. rewrite Ascii.eqb_refl.
    apply rep_greedy; try assumption; try reflexivity.
    cbv beta iota. rewrite Ascii.eqb_refl.
    rewrite <- (append_nil_r seg2) at 1.
    apply rep_greedy; try assumption; try reflexivity.
    cbv beta iota. cbn [Re.at_eol].
    f_equal. f_equal.
    + cbn [String.length]. rewrite !length_append. cbn [String.length].
      rewrite !length_append. cbn [String.length]. lia.
    + f_equal; [|f_equal]; f_equal.
      * rewrite <- (append_nil_r seg2) at 2. apply take_append_len. lia.
      * apply take_append_len. lia.
Qed.

(** [^] confines the pattern to the start of the input. *)
Lemma ejer_pattern_anchored (pos : nat) (s : string) :
  Re.match_at RPFLinkEjErEmmMsb.pattern (S pos) s = None.
Proof. reflexivity. Qed.

Lemma sub_from_step (r : Re.regex) (repl : list Re.titem) (pos : nat)
    (c : ascii) (s : string) :
  Re.sub_from r repl 0 pos (String c s) =
  match Re.match_at r pos (String c s) with
  | Some (n, g) =>
      Re.expand repl g ++
      match n with
      | 0 => String c (Re.sub_from r repl 0 (S pos) s)
      | S n' => Re.sub_from r repl n' (S pos) s
      end
  | None => String c (Re.sub_from r repl 0 (S pos) s)
  end.
Proof. reflexivity. Qed.

(** Past the start nothing is replaced. *)
Lemma ejer_sub_from_rest (s : string) :
  forall pos, Re.sub_from RPFLinkEjErEmmMsb.pattern RPFLinkEjErEmmMsb.repl 0 (S pos) s = s.
Proof.
  induction s as [|c s IH]; intros pos; [reflexivity|].
  rewrite sub_from_step, ejer_pattern_anchored. now rewrite IH.
Qed.

(** The characters of a match are passed over. *)
Lemma ejer_sub_from_skip (s : string) :
  forall skip pos,
    String.length s <= skip ->
    Re.sub_from RPFLinkEjErEmmMsb.pattern RPFLinkEjErEmmMsb.repl skip (S pos) s = "".
Proof.
  induction s as [|c s IH]; intros skip pos Hlen.
  - destruct skip; reflexivity.
  - destruct skip as [|skip]; [simpl in Hlen; lia|].
    simpl in Hlen. cbn [Re.sub_from]. apply IH. lia.
Qed.

(** Without a match at the start, [re.sub] returns its input. *)
Lemma ejer_sub_no_match (doi : string) :
  Re.match_at RPFLinkEjErEmmMsb.pattern 0 doi = None ->
  Re.sub RPFLinkEjErEmmMsb.pattern RPFLinkEjErEmmMsb.repl doi = doi.
Proof.
  intros H. unfold Re.sub. destruct doi as [|c s].
  - cbn [Re.sub_from]. now rewrite H.
  - rewrite sub_from_step, H. now rewrite ejer_sub_from_rest.
Qed.

(** C4: on a DOI [10.<4-9 digits>/<seg1>.<seg2>], with both segments
    non-empty and over the class [[-_;()/:a-zA-Z0-9]], the generator
    returns the download URL whose [file=] component is [<seg1><seg2>],
    without the dot, followed by [.reviewer_comments.pdf]. *)
Theorem ejer_generate_link_two_segments (self : instance) (ds seg1 seg2 : string) :
  4 <= String.length ds <= 9 -> Str.all Re.is_digit ds = true ->
  segment seg1 -> segment seg2 ->
  RPFLinkEjErEmmMsb._generate_link self ("10." ++ ds ++ "/" ++ seg1 ++ "." ++ seg2) =
  Ret ("https://www.embopress.org/action/downloadSupplement?doi="
       ++ ("10." ++ ds ++ "/" ++ seg1 ++ "." ++ seg2)
       ++ "&file=" ++ (seg1 ++ seg2) ++ ".reviewer_comments.pdf").
Proof.
  intros Hlen Hds H1 H2.
  pose proof (ejer_pattern_matches ds seg1 seg2 Hlen Hds H1 H2) as Hm.
  unfold RPFLinkEjErEmmMsb._generate_link. cbv zeta.
  do 4 f_equal.
  unfold Re.sub.
  set (doi := "10." ++ ds ++ "/" ++ seg1 ++ "." ++ seg2) in *.
  assert (Hd : doi = String "1" ("0." ++ ds ++ "/" ++ seg1 ++ "." ++ seg2))
    by reflexivity.
  rewrite Hd at 1. rewrite sub_from_step. rewrite <- Hd, Hm.
  rewrite Hd. cbn [String.length].
  rewrite ejer_sub_from_skip by lia.
  cbn [Re.expand RPFLinkEjErEmmMsb.repl Re.group Nat.eqb].
  now rewrite !append_nil_r.
Qed.

Lemma ejer_generate_link_two_segments_witness :
  (4 <= String.length "15252" <= 9 /\ Str.all Re.is_digit "15252" = true /\
   segment "embr" /\ segment "201847097") /\
  RPFLinkEjErEmmMsb._generate_link ejer "10.15252/embr.201847097" =
  Ret "https://www.embopress.org/action/downloadSupplement?doi=10.15252/embr.201847097&file=embr201847097.reviewer_comments.pdf".
Proof.
  assert (Hl : 4 <= String.length "15252" <= 9) by (simpl; lia).
  assert (Hd : Str.all Re.is_digit "15252" = true) by reflexivity.
  assert (H1 : segment "embr") by (split; [discriminate | reflexivity]).
  assert (H2 : segment "201847097") by (split; [discriminate | reflexivity]).
  split; [now repeat split|].
  exact (ejer_generate_link_two_segments ejer "15252" "embr" "201847097" Hl Hd H1 H2).
Defined.

(** ** The generator of Life Science Alliance *)

Lemma digits_length (s : string) : digits s -> 1 <= String.length s.
Proof. intros [Hn _]. destruct s; [congruence | simpl; lia]. Qed.

Lemma length_digits (s : string) :
  1 <= String.length s -> Str.all Re.is_digit s = true -> digits s.
Proof. intros Hl Ha. split; [|assumption]. intros ->. simpl in Hl. lia. Qed.

(** Where a volume/issue/number string starts, the pattern matches,
    and it takes the digits of the number to their end. *)
Lemma lsa_match_complete (pos : nat) (m post : string) :
  vol_issue_enumber m ->
  exists m0 post0,
    m ++ post = m0 ++ post0 /\ vol_issue_enumber m0 /\ no_digit_ahead post0 /\
    Re.match_at RPFLinkLSA.pattern pos (m ++ post) = Some (String.length m0, []).
Proof.
  intros (v & i & n & Hv & Hi & Hn & ->).
  destruct (span Re.is_digit post) as (run & rest & -> & Hrun & Hrest).
  pose proof (digits_length _ Hv) as Lv.
  pose proof (digits_length _ Hi) as Li.
  pose proof (digits_length _ Hn) as Ln.
  destruct Hv as [_ Hv], Hi as [_ Hi], Hn as [Hn0 Hn].
  exists (v ++ "/" ++ i ++ "/e" ++ n ++ run), rest.
  assert (Hnr : Str.all Re.is_digit (n ++ run) = true)
    by now rewrite all_append, Hn, Hrun.
  assert (Heq : (v ++ "/" ++ i ++ "/e" ++ n) ++ run ++ rest =
                (v ++ "/" ++ i ++ "/e" ++ n ++ run) ++ rest).
  { now norm_append. }
  split; [exact Heq|]. split; [|split; [exact Hrest|]].
  - exists v, i, (n ++ run). repeat split; try assumption.
    + intros ->. simpl in Lv. lia.
    + intros ->. simpl in Li. lia.
    + intros H. destruct n; [congruence | discriminate H].
  - rewrite Heq. norm_append.
    unfold Re.match_at, RPFLinkLSA.pattern. cbn [Re.seq Re.exec Re.atom_ok].
    apply rep_greedy; try (now rewrite all_digit_atom); try reflexivity; try lia.
    cbv beta iota. rewrite Ascii.eqb_refl.
    apply rep_greedy; try (now rewrite all_digit_atom); try reflexivity; try lia.
    cbv beta iota. rewrite !Ascii.eqb_refl.
    rewrite <- (append_assoc n run rest).
    apply rep_greedy; try (now rewrite all_digit_atom); try lia.
    + destruct rest as [|c rest]; [exact I|]. simpl. now rewrite orb_false_r.
    + rewrite length_append in *. lia.
    + exact I.
    + do 2 f_equal. rewrite !length_append. cbn [String.length].
      rewrite !length_append. cbn [String.length]. rewrite !length_append. lia.
Qed.

(** Where the pattern matches, a volume/issue/number string starts. *)
Lemma lsa_match_sound (pos : nat) (s : string) (k : nat) (g : Re.groups) :
  Re.match_at RPFLinkLSA.pattern pos s = Some (k, g) ->
  exists m post, s = m ++ post /\ vol_issue_enumber m.
Proof.
  unfold Re.match_at, RPFLinkLSA.pattern. cbn [Re.seq Re.exec Re.atom_ok]. intros H.
  apply rep_sound in H as (v & r1 & -> & Hv & Lv & H).
  destruct r1 as [|c r1]; [discriminate|].
  destruct (Ascii.eqb_spec "/" c) as [<-|]; [|discriminate].
  apply rep_sound in H as (i & r2 & -> & Hi & Li & H).
  destruct r2 as [|c r2]; [discriminate|].
  destruct (Ascii.eqb_spec "/" c) as [<-|]; [|discriminate].
  destruct r2 as [|c r2]; [discriminate|].
  destruct (Ascii.eqb_spec "e" c) as [<-|]; [|discriminate].
  apply rep_sound in H as (n & post & -> & Hn & Ln & _).
  rewrite all_digit_atom in Hv, Hi, Hn.
  exists (v ++ "/" ++ i ++ "/e" ++ n), post. split.
  - now norm_append.
  - exists v, i, n. repeat split; try assumption.
    + intros ->. simpl in Lv. lia.
    + intros ->. simpl in Li. lia.
    + intros ->. simpl in Ln. lia.
Qed.

Lemma search_from_step (r : Re.regex) (pos : nat) (s : string) :
  Re.search_from r pos s =
  match Re.match_at r pos s with
  | Some (n, g) => Some (pos, Re.take n s, g)
  | None =>
      match s with
      | EmptyString => None
      | String _ s' => Re.search_from r (S pos) s'
      end
  end.
Proof. destruct s; reflexivity. Qed.

(** [re.search] finds the leftmost volume/issue/number string. *)
Lemma lsa_search_first (s : string) :
  forall pos pre m post,
    occurs pre m post s -> vol_issue_enumber m ->
    exists pre0 m0 post0,
      occurs pre0 m0 post0 s /\ vol_issue_enumber m0 /\ no_digit_ahead post0 /\
      (forall pre' m' post',
          occurs pre' m' post' s -> vol_issue_enumber m' ->
          String.length pre0 <= String.length pre') /\
      Re.search_from RPFLinkLSA.pattern pos s = Some (pos + String.length pre0, m0, []).
Proof.
  unfold occurs.
  induction s as [|c s IH]; intros pos pre m post Ho Hm.
  - destruct pre; [|discriminate Ho]. simpl in Ho.
    destruct Hm as (v & i & n & [Hv _] & _ & _ & ->).
    destruct v; [congruence | discriminate Ho].
  - rewrite search_from_step.
    destruct (Re.match_at RPFLinkLSA.pattern pos (String c s)) as [[k g]|] eqn:Hk.
    + apply lsa_match_sound in Hk as Hs. destruct Hs as (m1 & post1 & Hs & Hm1).
      destruct (lsa_match_complete pos m1 post1 Hm1) as (m0 & post0 & He & Hm0 & Hd & Hc).
      rewrite <- Hs in Hc, He. rewrite Hk in Hc. injection Hc as -> ->.
      exists "", m0, post0. repeat split; try assumption.
      * simpl. lia.
      * rewrite Nat.add_0_r, He. now rewrite take_append.
    + destruct pre as [|c' pre].
      { simpl in Ho. destruct (lsa_match_complete pos m post Hm) as (? & ? & _ & _ & _ & Hc).
        rewrite <- Ho in Hc. congruence. }
      simpl in Ho. injection Ho as <- Ho.
      destruct (IH (S pos) pre m post Ho Hm) as (pre0 & m0 & post0 & H0 & Hm0 & Hd & Hmin & Hs).
      exists (String c pre0), m0, post0. repeat split; try assumption.
      * simpl. now rewrite <- H0.
      * intros pre' m' post' Ho' Hm'. destruct pre' as [|c' pre'].
        { simpl in Ho'. destruct (lsa_match_complete pos m' post' Hm') as (? & ? & _ & _ & _ & Hc).
          rewrite <- Ho' in Hc. congruence. }
        simpl in Ho'. injection Ho' as _ Ho'. simpl.
        apply le_n_S. exact (Hmin pre' m' post' Ho' Hm').
      * rewrite Hs. simpl. now rewrite Nat.add_succ_r.
Qed.


(** The landing page of the example in the source, in a world whose
    resolver lands on it. *)
Example lsa_generate_link_example :
  run (resolver_lands "https://www.life-science-alliance.org/content/2/4/e201900445"
         {| status_code := 200; json := Err JSONDecodeError |})
      (RPFLinkLSA._generate_link lsa "10.26508/lsa.201900445") =
  ([EvResolve "10.26508/lsa.201900445"],
   Ok "https://www.life-science-alliance.org/content/lsa/2/4/e201900445.reviewer-comments.pdf").
Proof. reflexivity. Qed.

(** C8: when the resolved landing page holds a string
    [<digits>/<digits>/e<digits>], the generator takes the leftmost one,
    with the digits of its number up to their end, and returns
    [https://www.life-science-alliance.org/content/lsa/] followed by it
    and [.reviewer-comments.pdf]. *)
Theorem lsa_generate_link_first_match (w : world) (self : instance)
    (doi resolved pre m post : string) :
  w_resolve w doi = Ok resolved ->
  occurs pre m post resolved ->
  vol_issue_enumber m ->
  exists pre0 m0 post0,
    occurs pre0 m0 post0 resolved /\ vol_issue_enumber m0 /\
    no_digit_ahead post0 /\
    (forall pre' m' post',
        occurs pre' m' post' resolved -> vol_issue_enumber m' ->
        String.length pre0 <= String.length pre') /\
    run w (RPFLinkLSA._generate_link self doi) =
    ([EvResolve doi],
     Ok ("https://www.life-science-alliance.org/content/lsa/" ++ m0
         ++ ".reviewer-comments.pdf")).
Proof.
  intros Hres Ho Hm.
  destruct (lsa_search_first resolved 0 pre m post Ho Hm)
    as (pre0 & m0 & post0 & H0 & Hm0 & Hd & Hmin & Hs).
  exists pre0, m0, post0. repeat split; try assumption.
  unfold RPFLinkLSA._generate_link, Re.search. cbn [run].
  rewrite Hres, Hs. reflexivity.
Qed.

Lemma lsa_generate_link_first_match_witness :
  let url := "https://www.life-science-alliance.org/content/2/4/e201900445" in
  let w := resolver_lands url {| status_code := 200; json := Err JSONDecodeError |} in
  (w_resolve w "10.26508/lsa.201900445" = Ok url /\
   occurs "https://www.life-science-alliance.org/content/" "2/4/e201900445" "" url /\
   vol_issue_enumber "2/4/e201900445") /\
  exists pre0 m0 post0,
    occurs pre0 m0 post0 url /\ vol_issue_enumber m0 /\
    no_digit_ahead post0 /\
    (forall pre' m' post',
        occurs pre' m' post' url -> vol_issue_enumber m' ->
        String.length pre0 <= String.length pre') /\
    run w (RPFLinkLSA._generate_link lsa "10.26508/lsa.201900445") =
    ([EvResolve "10.26508/lsa.201900445"],
     Ok ("https://www.life-science-alliance.org/content/lsa/" ++ m0
         ++ ".reviewer-comments.pdf")).
Proof.
  intros url w.
  assert (Hr : w_resolve w "10.26508/lsa.201900445" = Ok url) by reflexivity.
  assert (Ho : occurs "https://www.life-science-alliance.org/content/"
                 "2/4/e201900445" "" url) by reflexivity.
  assert (Hm : vol_issue_enumber "2/4/e201900445").
  { exists "2", "4", "201900445".
    repeat split; try discriminate; reflexivity. }
  split; [now repeat split|].
  exact (lsa_generate_link_first_match w lsa "10.26508/lsa.201900445" url
           "https://www.life-science-alliance.org/content/" "2/4/e201900445" ""
           Hr Ho Hm).
Defined.


(** ** Where the generator of the four journals leaves the two-segment form *)

(** Without a match the DOI is passed through into [file=]. *)
Lemma ejer_generate_link_passthrough (self : instance) (doi : string) :
  Re.match_at RPFLinkEjErEmmMsb.pattern 0 doi = None ->
  RPFLinkEjErEmmMsb._generate_link self doi =
  Ret ("https://www.embopress.org/action/downloadSupplement?doi=" ++ doi
       ++ "&file=" ++ doi ++ ".reviewer_comments.pdf").
Proof.
  intros H. unfold RPFLinkEjErEmmMsb._generate_link. cbv zeta.
  now rewrite (ejer_sub_no_match doi H).
Qed.

Lemma all_impl (p q : ascii -> bool) (s : string) :
  (forall c, p c = true -> q c = true) ->
  Str.all p s = true -> Str.all q s = true.
Proof.
  intros Hpq. induction s as [|c s IH]; [reflexivity|].
  simpl. intros H. apply andb_true_iff in H as [Hc Hs].
  now rewrite (Hpq c Hc), (IH Hs).
Qed.

(** A DOI of the two-segment form has no character outside the class
    of the segments and the dot. *)
Lemma two_segment_chars (doi : string) :
  two_segment_doi doi ->
  Str.all (fun c => Re.atom_ok RPFLinkEjErEmmMsb.segment c || Ascii.eqb c ".") doi = true.
Proof.
  intros (ds & seg1 & seg2 & _ & Hds & [_ H1] & [_ H2] & ->).
  assert (Hseg : forall s,
             Str.all (Re.atom_ok RPFLinkEjErEmmMsb.segment) s = true ->
             Str.all (fun c => Re.atom_ok RPFLinkEjErEmmMsb.segment c || Ascii.eqb c ".") s = true).
  { intros s. apply all_impl. intros c Hc. now rewrite Hc. }
  assert (Hdig : Str.all (Re.atom_ok RPFLinkEjErEmmMsb.segment) ds = true).
  { revert Hds. apply all_impl. intros c Hc. unfold Re.is_digit in Hc.
    cbn [Re.atom_ok RPFLinkEjErEmmMsb.segment existsb Re.citem_ok].
    change (Str.code "0") with 48. change (Str.code "9") with 57.
    rewrite Hc. now rewrite !orb_true_r. }
  norm_append. cbn [Str.all]. rewrite all_append. cbn [Str.all].
  rewrite all_append. cbn [Str.all].
  rewrite (Hseg ds Hdig), (Hseg seg1 H1), (Hseg seg2 H2). reflexivity.
Qed.

(** C5: on the string [10X1234/a.b], which is not of the two-segment
    form, the generator does not pass the DOI through: the unescaped [.]
    of the pattern takes the [X], and [file=] becomes [ab]. *)
Theorem ejer_generate_link_unescaped_dot :
  ~ two_segment_doi "10X1234/a.b" /\
  RPFLinkEjErEmmMsb._generate_link ejer "10X1234/a.b" =
  Ret "https://www.embopress.org/action/downloadSupplement?doi=10X1234/a.b&file=ab.reviewer_comments.pdf" /\
  RPFLinkEjErEmmMsb._generate_link ejer "10X1234/a.b" <>
  Ret "https://www.embopress.org/action/downloadSupplement?doi=10X1234/a.b&file=10X1234/a.b.reviewer_comments.pdf".
Proof.
  split; [|split].
  - intros (ds & seg1 & seg2 & _ & _ & _ & _ & H). discriminate H.
  - reflexivity.
  - discriminate.
Qed.

(** The same with a DOI that ends in a line feed: [$] matches in front
    of it, the two segments are joined and the line feed stays. *)
Example ejer_generate_link_trailing_newline :
  let doi := "10.15252/embr.201847097" ++ String (ascii_of_nat 10) "" in
  ~ two_segment_doi doi /\
  RPFLinkEjErEmmMsb._generate_link ejer doi =
  Ret ("https://www.embopress.org/action/downloadSupplement?doi=" ++ doi
       ++ "&file=embr201847097" ++ String (ascii_of_nat 10) ".reviewer_comments.pdf").
Proof.
  split; [|reflexivity].
  intros H. apply two_segment_chars in H. discriminate H.
Qed.

(** ** What the verifier does with the answer of the proxy *)

(** A proxy status other than 200 and a body that is not JSON are
    recovered: the result is [invalid]. *)
Lemma _test_recovers (w : world) (self : instance) (link invalid : string)
    (resp : response) :
  link <> "" ->
  w_post w "http://proxy:8191/v1" (RPFLinkAbstract.proxy_request_data link) 60000 = Ok resp ->
  status_code resp <> 200%Z \/ json resp = Err JSONDecodeError ->
  snd (run w (RPFLinkAbstract._test self (Some link) invalid)) = Ok invalid.
Proof.
  intros Hl Hp Hbad. destruct link as [|c link]; [congruence|].
  unfold RPFLinkAbstract._test.
  destruct (delay_requests self); cbn [bind run]; rewrite Hp;
    (destruct (Z.eqb_spec (status_code resp) 200) as [E|E]; cbn [negb run snd];
     [|reflexivity]);
    (destruct Hbad as [Hbad|Hbad]; [congruence|]);
    rewrite Hbad; reflexivity.
Qed.

(** The verifier returns the link exactly when the proxy answers 200
    with a JSON body whose [solution.status] equals 200 and whose
    [solution.headers], a [dict], holds under [content-type] a value that
    contains [application/pdf]. *)
Lemma _test_returns_link_iff (w : world) (self : instance) (link : string)
    (resp : response) :
  link <> "" ->
  w_post w "http://proxy:8191/v1" (RPFLinkAbstract.proxy_request_data link) 60000 = Ok resp ->
  snd (run w (RPFLinkAbstract._test self (Some link) "")) = Ok link <->
  status_code resp = 200%Z /\
  exists data solution status headers content_type,
    json resp = Ok data /\
    Py.getitem data "solution" = Ok solution /\
    Py.getitem solution "status" = Ok status /\
    Py.ne_int status 200 = false /\
    Py.getitem solution "headers" = Ok headers /\
    Py.get headers "content-type" (PStr "") = Ok content_type /\
    Py.str_in "application/pdf" content_type = Ok true.
Proof.
  intros Hl Hp. destruct link as [|c link]; [congruence|].
  assert (Hrun : snd (run w (RPFLinkAbstract._test self (Some (String c link)) "")) =
    snd (run w
      (if negb (status_code resp =? 200)%Z then
         Log WARNING "Failed to get response from proxy for %s: %s, %s" (String c link)
         (Ret "")
       else
         match json resp with
         | Err JSONDecodeError =>
             Log WARNING "Failed to get valid response from proxy for %s: %s, %s"
               (String c link) (Ret "")
         | Err e => Raise e
         | Ok proxy_response_data =>
             solution <- lift (Py.getitem proxy_response_data "solution") ;;
             response_status <- lift (Py.getitem solution "status") ;;
             solution <- lift (Py.getitem proxy_response_data "solution") ;;
             response_headers <- lift (Py.getitem solution "headers") ;;
             if Py.ne_int response_status 200 then
               Log WARNING "Failed to get response for %s: %s, %s" (String c link)
               (Ret "")
             else
               response_content_type <-
                 lift (Py.get response_headers "content-type" (PStr "")) ;;
               found <- lift (Py.str_in "application/pdf" response_content_type) ;;
               Ret (if found then String c link else "")
         end))).
  { unfold RPFLinkAbstract._test.
    destruct (delay_requests self); cbn [bind run]; rewrite Hp;
      destruct (run w _); reflexivity. }
  rewrite Hrun. clear Hrun.
  destruct (Z.eqb_spec (status_code resp) 200) as [E|E]; cbn [negb].
  2:{ split; [discriminate | intros [? _]; congruence]. }
  destruct (json resp) as [data|e].
  2:{ split.
      - destruct e; discriminate.
      - intros (_ & ? & ? & ? & ? & ? & H & _). discriminate H. }
  destruct (Py.getitem data "solution") as [solution|e] eqn:E1; cbn [lift bind].
  2:{ split; [discriminate|].
      intros (_ & ? & ? & ? & ? & ? & H & H' & _). congruence. }
  destruct (Py.getitem solution "status") as [status|e] eqn:E2; cbn [lift bind].
  2:{ split; [discriminate|].
      intros (_ & ? & ? & ? & ? & ? & H & H1 & H2 & _). congruence. }
  destruct (Py.getitem solution "headers") as [headers|e] eqn:E3; cbn [lift bind].
  2:{ split; [discriminate|].
      intros (_ & ? & ? & ? & ? & ? & H & H1 & H2 & H3 & H4 & _). congruence. }
  destruct (Py.ne_int status 200) eqn:E4.
  { split; [discriminate|].
    intros (_ & ? & ? & ? & ? & ? & H & H1 & H2 & H3 & _). congruence. }
  destruct (Py.get headers "content-type" (PStr "")) as [ct|e] eqn:E5; cbn [lift bind].
  2:{ split; [discriminate|].
      intros (_ & ? & ? & ? & ? & ? & H & H1 & H2 & H3 & H4 & H5 & _). congruence. }
  destruct (Py.str_in "application/pdf" ct) as [found|e] eqn:E6; cbn [lift bind run snd].
  2:{ split; [discriminate|].
      intros (_ & ? & ? & ? & ? & ? & H & H1 & H2 & H3 & H4 & H5 & H6). congruence. }
  destruct found.
  - split; [intros _ | reflexivity].
    split; [exact E|]. exists data, solution, status, headers, ct. now repeat split.
  - split; [discriminate|].
    intros (_ & ? & ? & ? & ? & ? & H & H1 & H2 & H3 & H4 & H5 & H6). congruence.
Qed.

(** C2: the proxy answers 200 with the body
    [{"solution": {"status": 404}}]: the status of the target is not
    200, yet the verifier does not return the empty string; it raises
    [KeyError] on [headers], which it reads before it looks at the
    status. *)
Theorem _test_status_without_headers_raises :
  let body := PDict [("solution", PDict [("status", PInt 404)])] in
  let link := "https://www.embopress.org/action/downloadSupplement?doi=10.15252/embr.201847097&file=embr201847097.reviewer_comments.pdf" in
  run (proxy_answers {| status_code := 200; json := Ok body |})
      (RPFLinkAbstract._test ejer (Some link) "") =
  ([EvRandint 5 20 5;
    EvLog DEBUG "Delaying %s seconds before requesting %s" link;
    EvSleep 5;
    EvPost "http://proxy:8191/v1" (RPFLinkAbstract.proxy_request_data link) 60000],
   Err (KeyError "headers")).
Proof. reflexivity. Qed.

(** C3: the proxy answers 200 with a JSON body that has no [solution],
    [{"status": "error", "message": "Error: timeout"}]: the verifier
    does not recover; [KeyError] on [solution] reaches the caller of
    [_test]. *)
Theorem _test_missing_solution_raises :
  let link := "https://www.embopress.org/action/downloadSupplement?doi=10.15252/embr.201847097&file=embr201847097.reviewer_comments.pdf" in
  let body := PDict [("status", PStr "error"); ("message", PStr "Error: timeout")] in
  run (proxy_answers {| status_code := 200; json := Ok body |})
      (RPFLinkAbstract._test ejer (Some link) "") =
  ([EvRandint 5 20 5;
    EvLog DEBUG "Delaying %s seconds before requesting %s" link;
    EvSleep 5;
    EvPost "http://proxy:8191/v1" (RPFLinkAbstract.proxy_request_data link) 60000],
   Err (KeyError "solution")).
Proof. reflexivity. Qed.

(** * Further properties of the code *)

(** ** Running a program in two parts *)

Lemma run_bind {A B : Type} (w : world) (p : io A) (f : A -> io B) :
  run w (bind p f) =
  match run w p with
  | (t, Ok a) => let (t', r) := run w (f a) in ((t ++ t')%list, r)
  | (t, Err e) => (t, Err e)
  end.
Proof.
  induction p as [a|e|a b k IH|secs k IH|lvl fmt arg k IH|url body timeout k IH|doi k IH];
    cbn [bind run].
  - now destruct (run w (f a)).
  - reflexivity.
  - rewrite IH. destruct (run w (k _)) as [t [x|e]]; [|reflexivity].
    now destruct (run w (f x)).
  - rewrite IH. destruct (run w k) as [t [x|e]]; [|reflexivity].
    now destruct (run w (f x)).
  - rewrite IH. destruct (run w k) as [t [x|e]]; [|reflexivity].
    now destruct (run w (f x)).
  - destruct (w_post w url body timeout) as [resp|e]; [|reflexivity].
    rewrite IH. destruct (run w (k resp)) as [t [x|e]]; [|reflexivity].
    now destruct (run w (f x)).
  - destruct (w_resolve w doi) as [u|e]; [|reflexivity].
    rewrite IH. destruct (run w (k u)) as [t [x|e]]; [|reflexivity].
    now destruct (run w (f x)).
Qed.

(** ** The verifier, path by path *)

(** Every run of [_test] on a link that is not empty: the delay, the
    one request, and what each answer leads to. *)
Lemma _test_run (w : world) (self : instance) (link invalid : string) :
  link <> "" ->
  run w (RPFLinkAbstract._test self (Some link) invalid) =
  let pre := (delay_trace w self link ++ [proxy_post link])%list in
  match proxy_answer w link with
  | Err e => (pre, Err e)
  | Ok resp =>
      if negb (status_code resp =? 200)%Z then
        ((pre ++ [EvLog WARNING "Failed to get response from proxy for %s: %s, %s" link])%list,
         Ok invalid)
      else
        match json resp with
        | Err JSONDecodeError =>
            ((pre ++ [EvLog WARNING "Failed to get valid response from proxy for %s: %s, %s" link])%list,
             Ok invalid)
        | Err e => (pre, Err e)
        | Ok data =>
            match Py.getitem data "solution" with
            | Err e => (pre, Err e)
            | Ok solution =>
                match Py.getitem solution "status" with
                | Err e => (pre, Err e)
                | Ok status =>
                    match Py.getitem solution "headers" with
                    | Err e => (pre, Err e)
                    | Ok headers =>
                        if Py.ne_int status 200 then
                          ((pre ++ [EvLog WARNING "Failed to get response for %s: %s, %s" link])%list,
                           Ok invalid)
                        else
                          match Py.get headers "content-type" (PStr "") with
                          | Err e => (pre, Err e)
                          | Ok content_type =>
                              match Py.str_in "application/pdf" content_type with
                              | Err e => (pre, Err e)
                              | Ok found => (pre, Ok (if found then link else invalid))
                              end
                          end
                    end
                end
            end
        end
  end.
Proof.
  intros Hl. destruct link as [|c link]; [congruence|].
  unfold RPFLinkAbstract._test, delay_trace, proxy_post, proxy_answer.
  destruct (delay_requests self); cbn [bind run app];
    (destruct (w_post w _ _ _) as [resp|e]; [|reflexivity]);
    (destruct (negb (status_code resp =? 200)%Z); [reflexivity|]);
    (destruct (json resp) as [data|[]]; try reflexivity);
    (destruct (Py.getitem data "solution") as [solution|e1]; [|reflexivity]);
    cbn [lift bind];
    (destruct (Py.getitem solution "status") as [status|e2]; [|reflexivity]);
    cbn [lift bind];
    (destruct (Py.getitem solution "headers") as [headers|e3]; [|reflexivity]);
    cbn [lift bind];
    (destruct (Py.ne_int status 200); [reflexivity|]);
    (destruct (Py.get headers "content-type" (PStr "")) as [ct|e4]; [|reflexivity]);
    cbn [lift bind];
    (destruct (Py.str_in "application/pdf" ct) as [found|e5]; reflexivity).
Qed.

(** X3: whatever the proxy answers, a result of [_test] is its [link]
    or its [invalid] argument, never another string. *)
Theorem _test_returns_link_or_invalid (w : world) (self : instance)
    (link : option string) (invalid s : string) :
  snd (run w (RPFLinkAbstract._test self link invalid)) = Ok s ->
  s = invalid \/ link = Some s.
Proof.
  destruct link as [[|c link]|].
  - cbn. intros H. injection H as <-. now left.
  - rewrite _test_run by discriminate. cbv zeta.
    destruct (proxy_answer w _) as [resp|e]; [|discriminate].
    destruct (negb _); [cbn; intros H; injection H as <-; now left|].
    destruct (json resp) as [data|[]]; try discriminate;
      [|cbn; intros H; injection H as <-; now left].
    destruct (Py.getitem data "solution") as [solution|e1]; [|discriminate].
    destruct (Py.getitem solution "status") as [status|e2]; [|discriminate].
    destruct (Py.getitem solution "headers") as [headers|e3]; [|discriminate].
    destruct (Py.ne_int status 200); [cbn; intros H; injection H as <-; now left|].
    destruct (Py.get headers _ _) as [ct|e4]; [|discriminate].
    destruct (Py.str_in _ ct) as [[|]|e5]; [| |discriminate];
      cbn; intros H; injection H as <-; [now right | now left].
  - cbn. intros H. injection H as <-. now left.
Qed.

Lemma _test_returns_link_or_invalid_witness :
  let body := PDict [("solution", PDict [("status", PInt 200);
                ("headers", PDict [("content-type", PStr "application/pdf")])])] in
  let w := proxy_answers {| status_code := 200; json := Ok body |} in
  snd (run w (RPFLinkAbstract._test ejer (Some "https://x/y.pdf") "no")) = Ok "https://x/y.pdf" /\
  ("https://x/y.pdf" = "no" \/ Some "https://x/y.pdf" = Some "https://x/y.pdf").
Proof.
  intros body w.
  assert (H : snd (run w (RPFLinkAbstract._test ejer (Some "https://x/y.pdf") "no"))
              = Ok "https://x/y.pdf") by reflexivity.
  split; [exact H|].
  exact (_test_returns_link_or_invalid w ejer (Some "https://x/y.pdf") "no"
           "https://x/y.pdf" H).
Defined.

(** X4: on a link that is not empty the trace of [_test] is the delay
    (with [delay_requests]: the draw from 5 to 20, the debug message and
    a sleep of the drawn duration; without it nothing), then one request
    to the proxy for the link, then at most one warning about the link.
    So there is one request per call, no retry, and the sleep comes
    before it. *)
Theorem _test_trace_shape (w : world) (self : instance) (link invalid : string) :
  link <> "" ->
  exists rest,
    fst (run w (RPFLinkAbstract._test self (Some link) invalid)) =
    (delay_trace w self link ++ proxy_post link :: rest)%list /\
    (rest = [] \/ exists fmt, rest = [EvLog WARNING fmt link]).
Proof.
  intros Hl. rewrite (_test_run w self link invalid Hl). cbv zeta.
  assert (Hsplit : forall (pre : list event) (x y : event),
             ((pre ++ [x]) ++ [y])%list = (pre ++ x :: [y])%list).
  { intros. now rewrite <- app_assoc. }
  assert (Hnone : exists rest,
             (delay_trace w self link ++ [proxy_post link])%list =
             (delay_trace w self link ++ proxy_post link :: rest)%list /\
             (rest = [] \/ exists fmt, rest = [EvLog WARNING fmt link])).
  { exists []. split; [reflexivity | now left]. }
  assert (Hwarn : forall fmt, exists rest,
             ((delay_trace w self link ++ [proxy_post link])
                ++ [EvLog WARNING fmt link])%list =
             (delay_trace w self link ++ proxy_post link :: rest)%list /\
             (rest = [] \/ exists fmt', rest = [EvLog WARNING fmt' link])).
  { intros fmt. exists [EvLog WARNING fmt link]. split; [apply Hsplit|].
    right. now exists fmt. }
  destruct (proxy_answer w link) as [resp|e]; [|exact Hnone].
  destruct (negb _); [apply Hwarn|].
  destruct (json resp) as [data|[]]; try exact Hnone; [|apply Hwarn].
  destruct (Py.getitem data "solution") as [solution|e1]; [|exact Hnone].
  destruct (Py.getitem solution "status") as [status|e2]; [|exact Hnone].
  destruct (Py.getitem solution "headers") as [headers|e3]; [|exact Hnone].
  destruct (Py.ne_int status 200); [apply Hwarn|].
  destruct (Py.get headers _ _) as [ct|e4]; [|exact Hnone].
  destruct (Py.str_in _ ct) as [found|e5]; exact Hnone.
Qed.

Lemma _test_trace_shape_witness :
  let w := proxy_answers {| status_code := 503; json := Err JSONDecodeError |} in
  "https://x/y.pdf" <> "" /\
  exists rest,
    fst (run w (RPFLinkAbstract._test ejer (Some "https://x/y.pdf") "")) =
    (delay_trace w ejer "https://x/y.pdf" ++ proxy_post "https://x/y.pdf" :: rest)%list /\
    (rest = [] \/ exists fmt, rest = [EvLog WARNING fmt "https://x/y.pdf"]).
Proof.
  intros w.
  assert (H : "https://x/y.pdf" <> "") by discriminate.
  split; [exact H|].
  exact (_test_trace_shape w ejer "https://x/y.pdf" "" H).
Defined.

(** X5: a target status other than 200 is recovered when the body has
    both [solution.status] and [solution.headers]: one warning, and the
    result is [invalid]. *)
Theorem _test_target_status_recovered (w : world) (self : instance)
    (link invalid : string) (resp : response) (data solution status headers : pyval) :
  link <> "" ->
  proxy_answer w link = Ok resp ->
  status_code resp = 200%Z ->
  json resp = Ok data ->
  Py.getitem data "solution" = Ok solution ->
  Py.getitem solution "status" = Ok status ->
  Py.getitem solution "headers" = Ok headers ->
  Py.ne_int status 200 = true ->
  run w (RPFLinkAbstract._test self (Some link) invalid) =
  ((delay_trace w self link ++
    [proxy_post link; EvLog WARNING "Failed to get response for %s: %s, %s" link])%list,
   Ok invalid).
Proof.
  intros Hl Hp Hc Hj H1 H2 H3 H4.
  rewrite (_test_run w self link invalid Hl). cbv zeta.
  rewrite Hp, Hc, Hj, H1, H2, H3, H4. cbn [Z.eqb Pos.eqb negb].
  now rewrite <- app_assoc.
Qed.

Lemma _test_target_status_recovered_witness :
  let headers := PDict [("content-type", PStr "text/html")] in
  let solution := PDict [("status", PInt 404); ("headers", headers)] in
  let data := PDict [("solution", solution)] in
  let resp := {| status_code := 200; json := Ok data |} in
  let w := proxy_answers resp in
  let link := "https://x/y.pdf" in
  (link <> "" /\ proxy_answer w link = Ok resp /\ status_code resp = 200%Z /\
   json resp = Ok data /\ Py.getitem data "solution" = Ok solution /\
   Py.getitem solution "status" = Ok (PInt 404) /\
   Py.getitem solution "headers" = Ok headers /\ Py.ne_int (PInt 404) 200 = true) /\
  snd (run w (RPFLinkAbstract._test ejer (Some link) "")) = Ok "".
Proof.
  intros headers solution data resp w link.
  assert (Hl : link <> "") by discriminate.
  split; [repeat split; try reflexivity; exact Hl|].
  exact (f_equal snd
    (_test_target_status_recovered w ejer link "" resp data solution (PInt 404) headers
       Hl eq_refl eq_refl eq_refl eq_refl eq_refl eq_refl eq_refl)).
Defined.

(** X6: the header is looked up under the exact key [content-type]. When
    the headers of a 200 answer have no such key (a [Content-Type] in
    another case does not count), the result is [invalid], and the
    rejection is not logged: the trace ends with the request. *)
Theorem _test_content_type_key_exact (w : world) (self : instance)
    (link invalid : string) (resp : response) (data solution status : pyval)
    (items : list (string * pyval)) :
  link <> "" ->
  proxy_answer w link = Ok resp ->
  status_code resp = 200%Z ->
  json resp = Ok data ->
  Py.getitem data "solution" = Ok solution ->
  Py.getitem solution "status" = Ok status ->
  Py.getitem solution "headers" = Ok (PDict items) ->
  Py.ne_int status 200 = false ->
  Py.assoc "content-type" items = None ->
  run w (RPFLinkAbstract._test self (Some link) invalid) =
  ((delay_trace w self link ++ [proxy_post link])%list, Ok invalid).
Proof.
  intros Hl Hp Hc Hj H1 H2 H3 H4 H5.
  rewrite (_test_run w self link invalid Hl). cbv zeta.
  rewrite Hp, Hc, Hj, H1, H2, H3, H4. cbn [Z.eqb Pos.eqb negb Py.get].
  rewrite H5. reflexivity.
Qed.

Lemma _test_content_type_key_exact_witness :
  let items := [("Content-Type", PStr "application/pdf")] in
  let solution := PDict [("status", PInt 200); ("headers", PDict items)] in
  let data := PDict [("solution", solution)] in
  let resp := {| status_code := 200; json := Ok data |} in
  let w := proxy_answers resp in
  let link := "https://x/y.pdf" in
  (link <> "" /\ proxy_answer w link = Ok resp /\ status_code resp = 200%Z /\
   json resp = Ok data /\ Py.getitem data "solution" = Ok solution /\
   Py.getitem solution "status" = Ok (PInt 200) /\
   Py.getitem solution "headers" = Ok (PDict items) /\
   Py.ne_int (PInt 200) 200 = false /\ Py.assoc "content-type" items = None) /\
  snd (run w (RPFLinkAbstract._test ejer (Some link) "")) = Ok "".
Proof.
  intros items solution data resp w link.
  assert (Hl : link <> "") by discriminate.
  split; [repeat split; try reflexivity; exact Hl|].
  exact (f_equal snd
    (_test_content_type_key_exact w ejer link "" resp data solution (PInt 200) items
       Hl eq_refl eq_refl eq_refl eq_refl eq_refl eq_refl eq_refl eq_refl)).
Defined.

(** X7: only [JSONDecodeError] is caught. Any other error of [json()],
    and every error of the lookups in the decoded body ([solution],
    [status], [headers], the [get] on the headers, the [in] on the
    content type), reaches the caller of [_test], with no warning
    logged. *)
Theorem _test_errors_reach_caller (w : world) (self : instance)
    (link invalid : string) (resp : response) (e : exn) :
  link <> "" ->
  proxy_answer w link = Ok resp ->
  status_code resp = 200%Z ->
  (json resp = Err e /\ e <> JSONDecodeError) \/
  (exists data, json resp = Ok data /\
     (Py.getitem data "solution" = Err e \/
      exists solution, Py.getitem data "solution" = Ok solution /\
        (Py.getitem solution "status" = Err e \/
         exists status, Py.getitem solution "status" = Ok status /\
           (Py.getitem solution "headers" = Err e \/
            exists headers, Py.getitem solution "headers" = Ok headers /\
              Py.ne_int status 200 = false /\
              (Py.get headers "content-type" (PStr "") = Err e \/
               exists content_type,
                 Py.get headers "content-type" (PStr "") = Ok content_type /\
                 Py.str_in "application/pdf" content_type = Err e))))) ->
  run w (RPFLinkAbstract._test self (Some link) invalid) =
  ((delay_trace w self link ++ [proxy_post link])%list, Err e).
Proof.
  intros Hl Hp Hc H.
  rewrite (_test_run w self link invalid Hl). cbv zeta.
  rewrite Hp, Hc. cbn [Z.eqb Pos.eqb negb].
  destruct H as [[Hj Hne]|(data & Hj & H)]; rewrite Hj.
  { destruct e; congruence. }
  destruct H as [H|(solution & H1 & H)]; [now rewrite H|]. rewrite H1.
  destruct H as [H|(status & H2 & H)]; [now rewrite H|]. rewrite H2.
  destruct H as [H|(headers & H3 & H4 & H)]; [now rewrite H|]. rewrite H3, H4.
  destruct H as [H|(ct & H5 & H6)]; [now rewrite H|]. now rewrite H5, H6.
Qed.

Lemma _test_errors_reach_caller_witness :
  let headers := PDict [("content-type", PNone)] in
  let solution := PDict [("status", PInt 200); ("headers", headers)] in
  let data := PDict [("solution", solution)] in
  let resp := {| status_code := 200; json := Ok data |} in
  let w := proxy_answers resp in
  let link := "https://x/y.pdf" in
  (link <> "" /\ proxy_answer w link = Ok resp /\ status_code resp = 200%Z) /\
  snd (run w (RPFLinkAbstract._test ejer (Some link) "")) = Err TypeError.
Proof.
  intros headers solution data resp w link.
  assert (Hl : link <> "") by discriminate.
  split; [repeat split; try reflexivity; exact Hl|].
  refine (f_equal snd
    (_test_errors_reach_caller w ejer link "" resp TypeError Hl eq_refl eq_refl _)).
  right. exists data. split; [reflexivity|]. right.
  exists solution. split; [reflexivity|]. right.
  exists (PInt 200). split; [reflexivity|]. right.
  exists headers. split; [reflexivity|]. split; [reflexivity|]. right.
  exists PNone. split; reflexivity.
Defined.

(** Splits a goal along every path of a run of [_test]. *)
Ltac test_paths :=
  repeat match goal with
         | |- context [match ?x with _ => _ end] => destruct x eqn:?
         end.

(** The events of [_test] by kind. *)
Lemma _test_events (w : world) (self : instance) (link invalid : string) :
  link <> "" ->
  filter is_post (fst (run w (RPFLinkAbstract._test self (Some link) invalid))) =
  [proxy_post link] /\
  filter is_resolve (fst (run w (RPFLinkAbstract._test self (Some link) invalid))) = [].
Proof.
  intros Hl. rewrite (_test_run w self link invalid Hl). cbv zeta.
  unfold delay_trace. test_paths; split; reflexivity.
Qed.

(** A result of [_test] that is not empty, with the default [invalid],
    is the link. *)
Lemma _test_nonempty_result (w : world) (self : instance) (link s : string) :
  snd (run w (RPFLinkAbstract._test self (Some link) "")) = Ok s ->
  s <> "" -> s = link.
Proof.
  destruct link as [|c link].
  - cbn. intros H Hs. congruence.
  - rewrite _test_run by discriminate. cbv zeta.
    test_paths; cbn [snd]; intros H Hs; congruence.
Qed.

(** The generators never return the empty string. *)
Lemma _generate_link_nonempty (w : world) (self : instance) (doi link : string) :
  snd (run w (_generate_link self doi)) = Ok link -> link <> "".
Proof.
  unfold _generate_link, RPFLinkAbstract._generate_link,
    RPFLinkEjErEmmMsb._generate_link, RPFLinkLSA._generate_link.
  destruct (klass_of self); cbn [run snd].
  - discriminate.
  - intros H. injection H as <-. discriminate.
  - destruct (w_resolve w doi) as [u|e]; [|discriminate].
    destruct (Re.search _ u) as [[[? m] ?]|]; cbn [run snd]; [|discriminate].
    intros H. injection H as <-. discriminate.
Qed.

(** ** The dispatcher and the strategies as wholes *)

(** X1: [generate_rpf_link] never returns a link and never reaches the
    outside: in every world and for every journal and DOI it returns the
    empty string or raises [TypeError], with an empty trace. *)
Theorem generate_rpf_link_never_links (w : world) (journal doi : string) :
  run w (generate_rpf_link journal doi) = ([], Ok "") \/
  run w (generate_rpf_link journal doi) = ([], Err TypeError).
Proof.
  rewrite generate_rpf_link_selected.
  destruct (selected journal) as [[| |]|]; cbn; auto.
Qed.

Lemma lstrip_spaces (ws s : string) :
  Str.all Str.isspace ws = true -> Str.lstrip (ws ++ s) = Str.lstrip s.
Proof.
  induction ws as [|c ws IH]; [reflexivity|].
  cbn [Str.all append Str.lstrip]. intros H.
  apply andb_true_iff in H as [Hc Hws]. now rewrite Hc, IH.
Qed.

Lemma rstrip_all_spaces (ws : string) :
  Str.all Str.isspace ws = true -> Str.rstrip ws = "".
Proof.
  induction ws as [|c ws IH]; [reflexivity|].
  cbn [Str.all Str.rstrip]. intros H.
  apply andb_true_iff in H as [Hc Hws]. now rewrite (IH Hws), Hc.
Qed.

Lemma rstrip_spaces (s ws : string) :
  Str.all Str.isspace ws = true -> Str.rstrip (s ++ ws) = Str.rstrip s.
Proof.
  intros Hws. induction s as [|c s IH].
  - cbn [append]. now rewrite rstrip_all_spaces.
  - cbn [append Str.rstrip]. now rewrite IH.
Qed.

Lemma strip_spaces (pre s post : string) :
  Str.all Str.isspace pre = true -> Str.all Str.isspace post = true ->
  Str.strip (pre ++ s ++ post) = Str.strip s.
Proof.
  intros Hpre Hpost. unfold Str.strip. rewrite (lstrip_spaces pre _ Hpre).
  induction s as [|c s IH].
  - cbn [append]. rewrite <- (append_nil_r post) at 1.
    rewrite (lstrip_spaces post "" Hpost). reflexivity.
  - cbn [append Str.lstrip]. destruct (Str.isspace c); [exact IH|].
    apply (rstrip_spaces (String c s) post Hpost).
Qed.

(** X2: white space around the journal name does not count: with any
    run of white space in front and behind, [generate_rpf_link] is the
    same program. *)
Theorem generate_rpf_link_ignores_padding (pre journal post doi : string) :
  Str.all Str.isspace pre = true ->
  Str.all Str.isspace post = true ->
  generate_rpf_link (pre ++ journal ++ post) doi = generate_rpf_link journal doi.
Proof.
  intros Hpre Hpost. unfold generate_rpf_link.
  now rewrite (strip_spaces pre journal post Hpre Hpost).
Qed.

Lemma generate_rpf_link_ignores_padding_witness :
  let tab := String (ascii_of_nat 9) "" in
  let nl := String (ascii_of_nat 10) "" in
  (Str.all Str.isspace (tab ++ " ") = true /\ Str.all Str.isspace (" " ++ nl) = true) /\
  generate_rpf_link ((tab ++ " ") ++ "Unknown Journal" ++ " " ++ nl) "10.1/x" =
  generate_rpf_link "Unknown Journal" "10.1/x".
Proof.
  intros tab nl.
  assert (H1 : Str.all Str.isspace (tab ++ " ") = true) by reflexivity.
  assert (H2 : Str.all Str.isspace (" " ++ nl) = true) by reflexivity.
  split; [now split|].
  exact (generate_rpf_link_ignores_padding (tab ++ " ") "Unknown Journal" (" " ++ nl)
           "10.1/x" H1 H2).
Defined.

(** X8: a strategy returns a string that is not empty exactly when that
    string is the link its generator produced and the proxy, asked for
    this link, vouched for a PDF. *)
Theorem __call___link_iff_confirmed (w : world) (self : instance) (doi s : string) :
  s <> "" ->
  snd (run w (__call__ self doi)) = Ok s <->
  snd (run w (_generate_link self doi)) = Ok s /\
  exists resp, proxy_answer w s = Ok resp /\ confirms_pdf resp.
Proof.
  intros Hs. unfold __call__, RPFLinkAbstract.__call__. rewrite run_bind.
  destruct (run w (_generate_link self doi)) as [t1 [link|e]] eqn:Hg; cbn [snd].
  2:{ split; [discriminate | intros [H _]; discriminate H]. }
  destruct (run w (RPFLinkAbstract._test self (Some link) "")) as [t2 r] eqn:Ht.
  cbn [snd].
  assert (Hr : snd (run w (RPFLinkAbstract._test self (Some link) "")) = r)
    by now rewrite Ht.
  split.
  - intros ->.
    pose proof (_test_nonempty_result w self link s Hr Hs) as ->.
    split; [reflexivity|].
    destruct (proxy_answer w link) as [resp|e] eqn:Hp.
    + exists resp. split; [reflexivity|].
      apply (_test_returns_link_iff w self link resp Hs Hp). exact Hr.
    + rewrite (_test_run w self link "" Hs) in Hr. cbv zeta in Hr.
      rewrite Hp in Hr. discriminate Hr.
  - intros [Hl (resp & Hp & Hc)]. injection Hl as ->.
    rewrite <- Hr. apply (_test_returns_link_iff w self s resp Hs Hp). exact Hc.
Qed.

Lemma __call___link_iff_confirmed_witness :
  let body := PDict [("solution", PDict [("status", PInt 200);
                ("headers", PDict [("content-type", PStr "application/pdf")])])] in
  let w := proxy_answers {| status_code := 200; json := Ok body |} in
  let s := "https://www.embopress.org/action/downloadSupplement?doi=10.15252/embr.201847097&file=embr201847097.reviewer_comments.pdf" in
  s <> "" /\
  (snd (run w (__call__ ejer "10.15252/embr.201847097")) = Ok s <->
   snd (run w (_generate_link ejer "10.15252/embr.201847097")) = Ok s /\
   exists resp, proxy_answer w s = Ok resp /\ confirms_pdf resp).
Proof.
  intros body w s.
  assert (Hs : s <> "") by discriminate.
  split; [exact Hs|].
  exact (__call___link_iff_confirmed w ejer "10.15252/embr.201847097" s Hs).
Defined.

(** X9: only the Life Science Alliance strategy consults the DOI
    resolver, and it does so once, with the DOI. *)
Theorem __call___resolver_use (w : world) (self : instance) (doi : string) :
  filter is_resolve (fst (run w (__call__ self doi))) =
  match klass_of self with
  | KLSA => [EvResolve doi]
  | _ => []
  end.
Proof.
  unfold __call__, RPFLinkAbstract.__call__. rewrite run_bind.
  assert (Ht : forall link,
             filter is_resolve
               (fst (run w (RPFLinkAbstract._test self (Some link) ""))) = []).
  { intros [|c link]; [reflexivity|]. now apply _test_events. }
  unfold _generate_link, RPFLinkAbstract._generate_link,
    RPFLinkEjErEmmMsb._generate_link, RPFLinkLSA._generate_link.
  destruct (klass_of self); cbn [run].
  - reflexivity.
  - specialize (Ht ("https://www.embopress.org/action/downloadSupplement?doi=" ++ doi
                    ++ "&file=" ++ Re.sub RPFLinkEjErEmmMsb.pattern RPFLinkEjErEmmMsb.repl doi
                    ++ ".reviewer_comments.pdf")).
    destruct (run w (RPFLinkAbstract._test self _ "")) as [t r].
    exact Ht.
  - destruct (w_resolve w doi) as [u|e]; [|reflexivity].
    destruct (Re.search _ u) as [[[? m] ?]|]; cbn [run]; [|reflexivity].
    specialize (Ht ("https://www.life-science-alliance.org/content/lsa/" ++ m
                    ++ ".reviewer-comments.pdf")).
    destruct (run w (RPFLinkAbstract._test self _ "")) as [t r].
    cbn [fst app filter is_resolve] in *. now rewrite Ht.
Qed.

(** X10: a strategy sends one request to the proxy, for the link its
    generator produced, when the generator returned; when the generator
    raised it sends none. *)
Theorem __call___one_request_per_link (w : world) (self : instance) (doi : string) :
  filter is_post (fst (run w (__call__ self doi))) =
  match snd (run w (_generate_link self doi)) with
  | Ok link => [proxy_post link]
  | Err _ => []
  end.
Proof.
  assert (Hg : forall t, (forall ev, In ev t -> is_post ev = false) ->
                         filter is_post t = []).
  { induction t as [|ev t IH]; [reflexivity|]. intros H. cbn [filter].
    rewrite (H ev (or_introl eq_refl)). apply IH. intros ev' Hin.
    apply H. now right. }
  assert (Hgen : forall ev, In ev (fst (run w (_generate_link self doi))) ->
                            is_post ev = false).
  { unfold _generate_link, RPFLinkAbstract._generate_link,
      RPFLinkEjErEmmMsb._generate_link, RPFLinkLSA._generate_link.
    destruct (klass_of self); cbn [run fst]; try (intros ev []).
    destruct (w_resolve w doi) as [u|e].
    - destruct (Re.search _ u) as [[[? m] ?]|]; cbn [run fst];
        intros ev [<-|[]]; reflexivity.
    - intros ev [<-|[]]; reflexivity. }
  pose proof (_generate_link_nonempty w self doi) as Hne.
  unfold __call__, RPFLinkAbstract.__call__. rewrite run_bind.
  destruct (run w (_generate_link self doi)) as [t1 [link|e]]; cbn [fst snd] in *.
  - pose proof (proj1 (_test_events w self link "" (Hne link eq_refl))) as Hp.
    destruct (run w (RPFLinkAbstract._test self (Some link) "")) as [t2 r].
    cbn [fst] in *. now rewrite filter_app, (Hg t1 Hgen), Hp.
  - apply Hg, Hgen.
Qed.

(** ** The two patterns, exactly *)

(** [rep_sound] with the upper bound of the repetition. *)
Lemma rep_sound_fits {R : Type} (a : Re.atom) (s : string) :
  forall lo hi pos (k : nat -> string -> option R) r,
    Re.rep a lo hi pos s k = Some r ->
    exists run rest,
      s = run ++ rest /\
      Str.all (Re.atom_ok a) run = true /\
      lo <= String.length run /\ fits hi (String.length run) /\
      k (pos + String.length run) rest = Some r.
Proof.
  induction s as [|c s IH]; intros lo hi pos k r H.
  - simpl in H. destruct (Nat.eqb_spec lo 0) as [->|]; [|discriminate].
    exists "", "". simpl. rewrite Nat.add_0_r. repeat split; auto.
    destruct hi; simpl; [lia | exact I].
  - assert (Hstop : (if (lo =? 0)%nat then k pos (String c s) else None) = Some r ->
                    exists run rest,
                      String c s = run ++ rest /\
                      Str.all (Re.atom_ok a) run = true /\
                      lo <= String.length run /\ fits hi (String.length run) /\
                      k (pos + String.length run) rest = Some r).
    { intros Hs. destruct (Nat.eqb_spec lo 0) as [->|]; [|discriminate].
      exists "", (String c s). simpl. rewrite Nat.add_0_r. repeat split; auto.
      destruct hi; simpl; [lia | exact I]. }
    simpl in H.
    destruct (Re.atom_ok a c && Re.can_more hi) eqn:Hc; [|now apply Hstop].
    destruct (Re.rep a (pred lo) (option_map pred hi) (S pos) s k) as [r'|] eqn:Hr;
      [|now apply Hstop].
    injection H as ->.
    apply IH in Hr as (run & rest & -> & Hall & Hlo & Hhi & Hk).
    apply andb_true_iff in Hc as [Hc Hm].
    exists (String c run), rest. simpl. rewrite Hc, Hall.
    repeat split; auto; [lia| |now rewrite <- Nat.add_succ_comm].
    destruct hi as [[|h]|]; simpl in *; [discriminate | lia | exact I].
Qed.

Lemma line_feed_code (c : ascii) : c <> line_feed <-> (Str.code c =? 10)%nat = false.
Proof.
  unfold line_feed, Str.code. split.
  - intros Hc. apply Nat.eqb_neq. intros H. apply Hc.
    now rewrite <- H, ascii_nat_embedding.
  - intros H ->. discriminate H.
Qed.

Lemma at_eol_tail (s : string) :
  Re.at_eol s = true <-> s = "" \/ s = String line_feed "".
Proof.
  split.
  - destruct s as [|c [|c' s]]; cbn [Re.at_eol]; [now left | | discriminate].
    intros H. right. f_equal.
    destruct (Ascii.ascii_dec c line_feed) as [E|E]; [exact E|].
    apply line_feed_code in E. congruence.
  - intros [->| ->]; reflexivity.
Qed.

(** The pattern of the four journals matches exactly the strings of the
    loose two-segment form, up to their line feed. *)
Lemma ejer_pattern_matches_loose (c : ascii) (ds seg1 seg2 tail : string) :
  c <> line_feed ->
  4 <= String.length ds <= 9 -> Str.all Re.is_digit ds = true ->
  segment seg1 -> segment seg2 ->
  tail = "" \/ tail = String line_feed "" ->
  Re.match_at RPFLinkEjErEmmMsb.pattern 0
    ("10" ++ String c (ds ++ "/" ++ seg1 ++ "." ++ seg2 ++ tail)) =
  Some (3 + String.length (ds ++ "/" ++ seg1 ++ "." ++ seg2), [(2, seg2); (1, seg1)]).
Proof.
  intros Hc Hlen Hds [Hn1 Hs1] [Hn2 Hs2] Htail.
  assert (L1 : 1 <= String.length seg1) by (destruct seg1; [congruence | simpl; lia]).
  assert (L2 : 1 <= String.length seg2) by (destruct seg2; [congruence | simpl; lia]).
  apply line_feed_code in Hc. apply at_eol_tail in Htail as Heol.
  unfold Re.match_at, RPFLinkEjErEmmMsb.pattern.
  cbn [Re.seq Re.exec append Nat.eqb Re.atom_ok].
  rewrite !Ascii.eqb_refl, Hc. cbn [negb].
  apply rep_greedy.
  - now rewrite all_digit_atom.
  - reflexivity.
  - lia.
  - simpl. lia.
  - cbv beta iota. rewrite Ascii.eqb_refl.
    apply rep_greedy; try assumption; try reflexivity.
    cbv beta iota. rewrite Ascii.eqb_refl.
    apply rep_greedy; try assumption; try reflexivity.
    + destruct Htail as [-> | ->]; [exact I | reflexivity].
    + cbv beta iota. rewrite Heol.
      f_equal. f_equal.
      * rewrite !length_append. cbn [String.length].
        rewrite !length_append. cbn [String.length]. lia.
      * f_equal; [|f_equal]; f_equal.
        -- apply take_append_len. lia.
        -- apply take_append_len. lia.
Qed.

Lemma ejer_pattern_sound (doi : string) (n : nat) (g : Re.groups) :
  Re.match_at RPFLinkEjErEmmMsb.pattern 0 doi = Some (n, g) ->
  exists seg1 seg2 tail, loose_two_segment_doi doi seg1 seg2 tail.
Proof.
  unfold Re.match_at, RPFLinkEjErEmmMsb.pattern.
  cbn [Re.seq Re.exec Nat.eqb Re.atom_ok]. intros H.
  destruct doi as [|c1 doi]; [discriminate|].
  destruct (Ascii.eqb_spec "1" c1) as [<-|]; [|discriminate].
  destruct doi as [|c0 doi]; [discriminate|].
  destruct (Ascii.eqb_spec "0" c0) as [<-|]; [|discriminate].
  destruct doi as [|c doi]; [discriminate|].
  destruct (Str.code c =? 10)%nat eqn:Hc; [discriminate|]. cbn [negb] in H.
  apply line_feed_code in Hc.
  apply rep_sound_fits in H as (ds & r1 & -> & Hds & Lds & Fds & H).
  destruct r1 as [|x r1]; [discriminate|].
  destruct (Ascii.eqb_spec "/" x) as [<-|]; [|discriminate].
  apply rep_sound_fits in H as (seg1 & r2 & -> & Hs1 & L1 & _ & H).
  destruct r2 as [|x r2]; [discriminate|].
  destruct (Ascii.eqb_spec "." x) as [<-|]; [|discriminate].
  apply rep_sound_fits in H as (seg2 & tail & -> & Hs2 & L2 & _ & H).
  destruct (Re.at_eol tail) eqn:Heol; [|discriminate].
  apply at_eol_tail in Heol. rewrite all_digit_atom in Hds.
  exists seg1, seg2, tail, c, ds. repeat split; try assumption.
  - intros ->. simpl in L1. lia.
  - intros ->. simpl in L2. lia.
Qed.

(** After a match of [a], what follows is kept as it is. *)
Lemma ejer_sub_from_skip_then_rest (a b : string) :
  forall pos,
    Re.sub_from RPFLinkEjErEmmMsb.pattern RPFLinkEjErEmmMsb.repl
      (String.length a) (S pos) (a ++ b) = b.
Proof.
  induction a as [|c a IH]; intros pos.
  - apply ejer_sub_from_rest.
  - cbn [String.length append Re.sub_from]. apply IH.
Qed.

(** X11: on a DOI of the loose two-segment form, that is [10], any one
    character but a line feed, 4 to 9 digits, [/], [<seg1>.<seg2>] and
    then nothing or one line feed, the generator of the four journals
    puts [<seg1><seg2>], followed by that line feed if there is one,
    into [file=]. *)
Theorem ejer_generate_link_loose (self : instance) (doi seg1 seg2 tail : string) :
  loose_two_segment_doi doi seg1 seg2 tail ->
  RPFLinkEjErEmmMsb._generate_link self doi =
  Ret ("https://www.embopress.org/action/downloadSupplement?doi=" ++ doi
       ++ "&file=" ++ (seg1 ++ seg2 ++ tail) ++ ".reviewer_comments.pdf").
Proof.
  intros (c & ds & Hc & Hlen & Hds & H1 & H2 & Htail & ->).
  pose proof (ejer_pattern_matches_loose c ds seg1 seg2 tail Hc Hlen Hds H1 H2 Htail)
    as Hm.
  unfold RPFLinkEjErEmmMsb._generate_link. cbv zeta.
  do 4 f_equal.
  unfold Re.sub.
  set (body := ds ++ "/" ++ seg1 ++ "." ++ seg2) in *.
  assert (Hd : "10" ++ String c (ds ++ "/" ++ seg1 ++ "." ++ seg2 ++ tail) =
               String "1" (("0" ++ String c body) ++ tail)).
  { unfold body. now norm_append. }
  rewrite Hd in *. rewrite sub_from_step, Hm.
  cbn [Nat.add].
  replace (S (S (String.length body))) with (String.length ("0" ++ String c body))
    by reflexivity.
  rewrite ejer_sub_from_skip_then_rest.
  cbn [Re.expand RPFLinkEjErEmmMsb.repl Re.group Nat.eqb].
  now norm_append.
Qed.

Lemma ejer_generate_link_loose_witness :
  let doi := "10-15252/msb.20198849" ++ String line_feed "" in
  loose_two_segment_doi doi "msb" "20198849" (String line_feed "") /\
  RPFLinkEjErEmmMsb._generate_link ejer doi =
  Ret ("https://www.embopress.org/action/downloadSupplement?doi=" ++ doi
       ++ "&file=" ++ ("msb" ++ "20198849" ++ String line_feed "")
       ++ ".reviewer_comments.pdf").
Proof.
  intros doi.
  assert (H : loose_two_segment_doi doi "msb" "20198849" (String line_feed "")).
  { exists "-"%char, "15252". repeat split; try discriminate; try reflexivity.
    - simpl. lia.
    - simpl. lia.
    - now right. }
  split; [exact H|].
  exact (ejer_generate_link_loose ejer doi "msb" "20198849" (String line_feed "") H).
Defined.

(** X12: every other string is passed through: a DOI that is not of the
    loose two-segment form appears unchanged in [file=]. *)
Theorem ejer_generate_link_otherwise_passthrough (self : instance) (doi : string) :
  (forall seg1 seg2 tail, ~ loose_two_segment_doi doi seg1 seg2 tail) ->
  RPFLinkEjErEmmMsb._generate_link self doi =
  Ret ("https://www.embopress.org/action/downloadSupplement?doi=" ++ doi
       ++ "&file=" ++ doi ++ ".reviewer_comments.pdf").
Proof.
  intros Hno. apply ejer_generate_link_passthrough.
  destruct (Re.match_at RPFLinkEjErEmmMsb.pattern 0 doi) as [[n g]|] eqn:Hm;
    [|reflexivity].
  apply ejer_pattern_sound in Hm as (seg1 & seg2 & tail & H).
  exfalso. exact (Hno seg1 seg2 tail H).
Qed.

Lemma ejer_generate_link_otherwise_passthrough_witness :
  (forall seg1 seg2 tail, ~ loose_two_segment_doi "10.1038/nature12373" seg1 seg2 tail) /\
  RPFLinkEjErEmmMsb._generate_link ejer "10.1038/nature12373" =
  Ret "https://www.embopress.org/action/downloadSupplement?doi=10.1038/nature12373&file=10.1038/nature12373.reviewer_comments.pdf".
Proof.
  assert (H : forall seg1 seg2 tail,
             ~ loose_two_segment_doi "10.1038/nature12373" seg1 seg2 tail).
  { intros seg1 seg2 tail (c & ds & Hc & Hlen & Hds & H1 & H2 & Htail & Hd).
    pose proof (ejer_pattern_matches_loose c ds seg1 seg2 tail Hc Hlen Hds H1 H2 Htail)
      as Hm.
    rewrite <- Hd in Hm. vm_compute in Hm. discriminate Hm. }
  split; [exact H|].
  exact (ejer_generate_link_otherwise_passthrough ejer "10.1038/nature12373" H).
Defined.

(** Where nothing but a non-digit follows, the pattern of Life Science
    Alliance matches a volume/issue/number string as it stands. *)
Lemma lsa_match_exact (pos : nat) (m post : string) :
  vol_issue_enumber m -> no_digit_ahead post ->
  Re.match_at RPFLinkLSA.pattern pos (m ++ post) = Some (String.length m, []).
Proof.
  intros (v & i & n & Hv & Hi & Hn & ->) Hpost.
  pose proof (digits_length _ Hv) as Lv.
  pose proof (digits_length _ Hi) as Li.
  pose proof (digits_length _ Hn) as Ln.
  destruct Hv as [_ Hv], Hi as [_ Hi], Hn as [_ Hn].
  norm_append.
  unfold Re.match_at, RPFLinkLSA.pattern. cbn [Re.seq Re.exec Re.atom_ok].
  apply rep_greedy; try (now rewrite all_digit_atom); try reflexivity; try lia.
  cbv beta iota. rewrite Ascii.eqb_refl.
  apply rep_greedy; try (now rewrite all_digit_atom); try reflexivity; try lia.
  cbv beta iota. rewrite !Ascii.eqb_refl.
  apply rep_greedy; try (now rewrite all_digit_atom); try lia.
  - destruct post as [|c post]; [exact I|]. simpl. now rewrite orb_false_r.
  - exact I.
  - do 2 f_equal. rewrite !length_append. cbn [String.length].
    rewrite !length_append. cbn [String.length]. lia.
Qed.

(** A match of the pattern starts with a digit. *)
Lemma lsa_match_starts_with_digit (pos : nat) (s : string) (k : nat) (g : Re.groups) :
  Re.match_at RPFLinkLSA.pattern pos s = Some (k, g) ->
  exists c s', s = String c s' /\ Re.is_digit c = true.
Proof.
  intros H. apply lsa_match_sound in H as (m & post & -> & v & i & n & [Hv0 Hv] & _ & _ & ->).
  destruct v as [|c v]; [congruence|].
  cbn [Str.all] in Hv. apply andb_true_iff in Hv as [Hc _].
  exists c, ((v ++ "/" ++ i ++ "/e" ++ n) ++ post). split; [reflexivity | exact Hc].
Qed.

(** The search passes over a prefix without digits. *)
Lemma lsa_search_skips (pre s : string) :
  forall pos,
    Str.all (fun c => negb (Re.is_digit c)) pre = true ->
    Re.search_from RPFLinkLSA.pattern pos (pre ++ s) =
    Re.search_from RPFLinkLSA.pattern (pos + String.length pre) s.
Proof.
  induction pre as [|c pre IH]; intros pos Hpre.
  - cbn [append String.length]. now rewrite Nat.add_0_r.
  - cbn [Str.all] in Hpre. apply andb_true_iff in Hpre as [Hc Hpre].
    cbn [append]. rewrite search_from_step.
    destruct (Re.match_at RPFLinkLSA.pattern pos (String c (pre ++ s)))
      as [[k g]|] eqn:Hm.
    + apply lsa_match_starts_with_digit in Hm as (c' & s' & E & Hd).
      injection E as <- _. rewrite Hd in Hc. discriminate Hc.
    + rewrite (IH (S pos) Hpre). cbn [String.length].
      now rewrite Nat.add_succ_r.
Qed.

(** X13: when the resolved landing page is a prefix without digits, a
    string [<digits>/<digits>/e<digits>] and a rest that does not go on
    with a digit, the Life Science Alliance generator returns the link
    for exactly that string, after the one call of the resolver. *)
Theorem lsa_generate_link_exact (w : world) (self : instance)
    (doi pre m post : string) :
  w_resolve w doi = Ok (pre ++ m ++ post) ->
  Str.all (fun c => negb (Re.is_digit c)) pre = true ->
  vol_issue_enumber m ->
  no_digit_ahead post ->
  run w (RPFLinkLSA._generate_link self doi) =
  ([EvResolve doi],
   Ok ("https://www.life-science-alliance.org/content/lsa/" ++ m
       ++ ".reviewer-comments.pdf")).
Proof.
  intros Hres Hpre Hm Hpost.
  unfold RPFLinkLSA._generate_link, Re.search. cbn [run].
  rewrite Hres, (lsa_search_skips pre (m ++ post) 0 Hpre), search_from_step.
  rewrite (lsa_match_exact _ m post Hm Hpost), take_append.
  reflexivity.
Qed.

Lemma lsa_generate_link_exact_witness :
  let pre := "https://www.life-science-alliance.org/content/" in
  let m := "2/4/e201900445" in
  let post := ".full?utm=1" in
  let w := resolver_lands (pre ++ m ++ post)
             {| status_code := 200; json := Err JSONDecodeError |} in
  (w_resolve w "10.26508/lsa.201900445" = Ok (pre ++ m ++ post) /\
   Str.all (fun c => negb (Re.is_digit c)) pre = true /\
   vol_issue_enumber m /\ no_digit_ahead post) /\
  run w (RPFLinkLSA._generate_link lsa "10.26508/lsa.201900445") =
  ([EvResolve "10.26508/lsa.201900445"],
   Ok "https://www.life-science-alliance.org/content/lsa/2/4/e201900445.reviewer-comments.pdf").
Proof.
  intros pre m post w.
  assert (Hr : w_resolve w "10.26508/lsa.201900445" = Ok (pre ++ m ++ post))
    by reflexivity.
  assert (Hp : Str.all (fun c => negb (Re.is_digit c)) pre = true) by reflexivity.
  assert (Hm : vol_issue_enumber m).
  { exists "2", "4", "201900445". repeat split; try discriminate; reflexivity. }
  assert (Hn : no_digit_ahead post) by reflexivity.
  split; [now repeat split|].
  exact (lsa_generate_link_exact w lsa "10.26508/lsa.201900445" pre m post Hr Hp Hm Hn).
Defined.

(** ** Which failures surface and which yield the empty string *)


